(** * Light State Restoration: the manager of [__init__.py], embedded and verified

    The development follows the integration's entry-point module: the
    [LightStateRestorationManager] with its time-slot check, illuminance
    check, restore coroutine, motion handler, per-sensor delay timers and the
    four administration services.  The host platform (clock, state machine,
    service registry, event bus, event loop) is modelled by what the manager
    observes of it. *)

From Stdlib Require Import QArith Ascii.
From stdpp Require Import gmap strings list fin_maps.

(** ** Values of the host language *)

(** [datetime.time], naive: compared field by field, most significant first. *)
Record time := mk_time {
  hour : nat;
  minute : nat;
  second : nat;
  microsecond : nat;
}.

Definition time_cmp (a b : time) : comparison :=
  match Nat.compare (hour a) (hour b) with
  | Eq =>
      match Nat.compare (minute a) (minute b) with
      | Eq =>
          match Nat.compare (second a) (second b) with
          | Eq => Nat.compare (microsecond a) (microsecond b)
          | c => c
          end
      | c => c
      end
  | c => c
  end.

(** [a <= b] on two [datetime.time] values. *)
Definition time_le (a b : time) : bool :=
  match time_cmp a b with
  | Gt => false
  | _ => true
  end.

(** A Python [float]: a finite value (every finite double is a rational),
    an infinity, or not-a-number. *)
Inductive pyfloat :=
| Finite (q : Q)
| PosInf
| NegInf
| NaN.

(** [x > threshold] for a float [x] and a finite number [threshold]. *)
Definition float_gt (x : pyfloat) (threshold : Q) : bool :=
  match x with
  | Finite q => negb (Qle_bool q threshold)
  | PosInf => true
  | NegInf => false
  | NaN => false
  end.

(** Exceptions that cross the functions modelled here. *)
Inductive exn :=
| TypeError        (* comparing [None] with a [datetime.time] *)
| KeyError         (* subscripting a dict with a missing key *)
| ServiceError.    (* an awaited service call failed *)

Inductive result (A : Type) :=
| Return (a : A)
| Raise (e : exn).
Arguments Return {A} a.
Arguments Raise {A} e.

(** The two library functions the manager calls on strings.  Both are the
    host's, not the integration's; every general theorem below holds for
    any such pair.
    - [parse_time] is [dt_util.parse_time]: [None] when the string is not a
      time of day;
    - [float] is the builtin: [None] stands for [ValueError]. *)
Class Host := {
  parse_time : string → option time;
  float : string → option pyfloat;
}.

(** ** const.py *)

Definition DEFAULT_DELAY : Z := 180.
Definition DEFAULT_ILLUMINANCE_THRESHOLD : Q := 10 # 1.
Definition STATE_ON := "on".
Definition EVENT_RESTORATION_TRIGGERED := "light_restoration_triggered".
Definition EVENT_RESTORATION_CANCELLED := "light_restoration_cancelled".
Definition EVENT_TIME_SLOT_ADDED := "time_slot_added".
Definition EVENT_TIME_SLOT_REMOVED := "time_slot_removed".

(** ** Configuration entry *)

(** A stored slot: the dict [{start_time: str, end_time: str}]. *)
Record time_slot := mk_slot {
  start_time : string;
  end_time : string;
}.

Global Instance time_slot_eq_dec : EqDecision time_slot.
Proof. solve_decision. Defined.

(** [entry.data].  The keys read with [.get] may be absent. *)
Record ConfigEntryData := mk_data {
  area : string;
  lights : list string;
  motion_sensors : list string;
  illuminance_sensors : option (list string);
  illuminance_threshold : option Q;
  delay : option Z;
  time_slots : option (list time_slot);
}.

(** [entry.data.get(CONF_TIME_SLOTS, [])] *)
Definition get_time_slots (d : ConfigEntryData) : list time_slot :=
  default [] (time_slots d).

(** [dict(entry.data)] with [CONF_TIME_SLOTS] replaced. *)
Definition with_time_slots (l : list time_slot) (d : ConfigEntryData) : ConfigEntryData :=
  {| area := area d;
     lights := lights d;
     motion_sensors := motion_sensors d;
     illuminance_sensors := illuminance_sensors d;
     illuminance_threshold := illuminance_threshold d;
     delay := delay d;
     time_slots := Some l |}.

(** ** What the manager observes and what it does to the host *)

Inductive service_data :=
| EntityIds (ids : list string)      (* {"entity_id": [...]} *)
| EntityId (id : string).            (* {"entity_id": "..."} *)

Inductive event_data :=
| AreaData (a : string)                               (* {"area": a} *)
| SlotData (a : string) (slot : time_slot).           (* {"area": a, "slot": slot} *)

(** The observable actions, in the order they are issued. *)
Inductive effect :=
| Call (domain service : string) (data : service_data)   (* hass.services.async_call *)
| Fire (event_type : string) (data : event_data).        (* hass.bus.fire *)

(** The host at one moment: the clock, the state machine (entity id to state
    string) and whether a service call made now completes or raises. *)
Record World := mk_world {
  now : time;
  states : gmap string string;
  call_ok : string → string → service_data → bool;
}.

(** ** The two gates *)

Section Gates.
Context `{Host}.

(** The [for] loop of [_is_in_active_time_slot].  [start <= current_time <= end]
    is a chained comparison: the second comparison is evaluated only when the
    first holds, and comparing [None] (a string [parse_time] refused) with a
    time raises. *)
Fixpoint time_slot_loop (current_time : time) (slots : list time_slot) : result bool :=
  match slots with
  | [] => Return false
  | slot :: rest =>
      match parse_time (start_time slot) with
      | None => Raise TypeError
      | Some start =>
          if time_le start current_time then
            match parse_time (end_time slot) with
            | None => Raise TypeError
            | Some end_ =>
                if time_le current_time end_ then Return true
                else time_slot_loop current_time rest
            end
          else time_slot_loop current_time rest
      end
  end.

Definition _is_in_active_time_slot (w : World) (d : ConfigEntryData) : result bool :=
  time_slot_loop (now w) (get_time_slots d).

(** The [for] loop of [_check_illuminance]. *)
Fixpoint illuminance_loop (w : World) (threshold : Q) (sensors : list string) : bool :=
  match sensors with
  | [] => true
  | sensor_id :: rest =>
      match states w !! sensor_id with
      | None => illuminance_loop w threshold rest
      | Some state =>
          match float state with
          | Some v =>
              if float_gt v threshold then false
              else illuminance_loop w threshold rest
          | None => illuminance_loop w threshold rest
          end
      end
  end.

Definition _check_illuminance (w : World) (d : ConfigEntryData) : bool :=
  match illuminance_sensors d with
  | None => true
  | Some [] => true
  | Some sensors =>
      illuminance_loop w
        (default DEFAULT_ILLUMINANCE_THRESHOLD (illuminance_threshold d)) sensors
  end.

End Gates.

(** ** Coroutines that run to completion: effects in order, then a result *)

(** What a coroutine did to the host, in order, and how it ended.  An
    exception ends the coroutine at the point where it is raised: nothing
    after it is issued. *)
Definition Async (A : Type) : Type := (list effect * result A)%type.

Global Instance Async_ret : MRet Async := λ A a, ([], Return a).

Global Instance Async_bind : MBind Async := λ A B k m,
  match m with
  | (es, Return a) => let '(es', r) := k a in (es ++ es', r)
  | (es, Raise e) => (es, Raise e)
  end.

(** A pure computation that may raise, run inside a coroutine. *)
Definition lift {A : Type} (r : result A) : Async A := ([], r).

(** [await hass.services.async_call(domain, service, data, blocking=True)]:
    the call is issued; its failure surfaces to the caller. *)
Definition async_call (w : World) (domain service : string) (data : service_data) : Async () :=
  ([Call domain service data],
   if call_ok w domain service data then Return () else Raise ServiceError).

(** [hass.bus.fire(event_type, data)] *)
Definition bus_fire (event_type : string) (data : event_data) : Async () :=
  ([Fire event_type data], Return ()).

(** ** The manager and the event loop *)

(** Where a [_handle_delay_timer] coroutine is suspended. *)
Inductive timer_phase :=
| Sleeping                                              (* at [await asyncio.sleep(delay)] *)
| TurningOff (light_id : string) (rest : list string)   (* at the [await] of [light_id]'s turn_off; [rest] is still to come *)
| Finished.                                             (* past [finally] *)

(** An [asyncio.Task] running [_handle_delay_timer(motion_sensor_id, delay)]. *)
Record TimerTask := mk_task {
  t_sensor : string;
  t_delay : Z;
  t_phase : timer_phase;
  t_cancelled : bool;     (* [cancel()] was called; [CancelledError] is delivered at the next resumption *)
}.

Definition set_phase (p : timer_phase) (t : TimerTask) : TimerTask :=
  {| t_sensor := t_sensor t; t_delay := t_delay t; t_phase := p; t_cancelled := t_cancelled t |}.

(** [LightStateRestorationManager]: the attributes of [self].  A task handle
    stored in [_restore_timers] is the task's index in the loop's task list. *)
Record Manager := mk_manager {
  entry_data : ConfigEntryData;
  _area : string;
  _enabled : bool;
  _motion_active : gmap string bool;
  _restore_timers : gmap string nat;
}.

Definition set_entry_data (d : ConfigEntryData) (m : Manager) : Manager :=
  {| entry_data := d; _area := _area m; _enabled := _enabled m;
     _motion_active := _motion_active m; _restore_timers := _restore_timers m |}.

Definition set_enabled (b : bool) (m : Manager) : Manager :=
  {| entry_data := entry_data m; _area := _area m; _enabled := b;
     _motion_active := _motion_active m; _restore_timers := _restore_timers m |}.

Definition set_motion_active (ma : gmap string bool) (m : Manager) : Manager :=
  {| entry_data := entry_data m; _area := _area m; _enabled := _enabled m;
     _motion_active := ma; _restore_timers := _restore_timers m |}.

Definition set_restore_timers (rt : gmap string nat) (m : Manager) : Manager :=
  {| entry_data := entry_data m; _area := _area m; _enabled := _enabled m;
     _motion_active := _motion_active m; _restore_timers := rt |}.

(** The manager together with the tasks it has handed to the event loop:
    every timer task ever created, in creation order (a task stays in the
    list when the manager forgets its handle), and the number of
    [_restore_lights] tasks created and not yet run. *)
Record Loop := mk_loop {
  self : Manager;
  timer_tasks : list TimerTask;
  restore_tasks : nat;
}.

Definition set_self (m : Manager) (s : Loop) : Loop :=
  {| self := m; timer_tasks := timer_tasks s; restore_tasks := restore_tasks s |}.

Definition set_timer_tasks (ts : list TimerTask) (s : Loop) : Loop :=
  {| self := self s; timer_tasks := ts; restore_tasks := restore_tasks s |}.

(** [__init__] *)
Definition init (d : ConfigEntryData) : Manager :=
  {| entry_data := d; _area := area d; _enabled := true;
     _motion_active := ∅; _restore_timers := ∅ |}.

(** [async_setup]: every configured motion sensor starts inactive. *)
Definition async_setup (d : ConfigEntryData) : Loop :=
  {| self := set_motion_active
               (foldl (λ ma sensor_id, <[sensor_id := false]> ma) ∅ (motion_sensors d))
               (init d);
     timer_tasks := [];
     restore_tasks := 0 |}.

(** [any(self._motion_active.values())] *)
Definition any_active (ma : gmap string bool) : bool :=
  existsb id (map_to_list ma).*2.

(** [timer.cancel()]: a request; a finished task ignores it. *)
Definition cancel (tid : nat) (tasks : list TimerTask) : list TimerTask :=
  alter (λ t, match t_phase t with
              | Finished => t
              | _ => {| t_sensor := t_sensor t; t_delay := t_delay t;
                        t_phase := t_phase t; t_cancelled := true |}
              end) tid tasks.

Section Manager.
Context `{Host}.

(** [_restore_lights]: reads the manager, assigns none of its attributes.
    [not self._enabled or not self._is_in_active_time_slot()] evaluates the
    time-slot check only when the manager is enabled. *)
Definition _restore_lights (w : World) (m : Manager) : Async () :=
  skip ← (if negb (_enabled m) then mret true
          else in_slot ← lift (_is_in_active_time_slot w (entry_data m)); mret (negb in_slot));
  if skip : bool then mret ()
  else if negb (_check_illuminance w (entry_data m)) then mret ()
  else
    async_call w "light_state_management" "restore_state" (EntityIds (lights (entry_data m)));;
    bus_fire EVENT_RESTORATION_TRIGGERED (AreaData (_area m)).

(** [_handle_interval_scan], the periodic safety net. *)
Definition _handle_interval_scan (w : World) (m : Manager) : Async () :=
  if negb (_enabled m) then mret ()
  else
    in_slot ← lift (_is_in_active_time_slot w (entry_data m));
    if in_slot && _check_illuminance w (entry_data m) && any_active (_motion_active m)
    then _restore_lights w m
    else mret ().

End Manager.

(** [_handle_motion_change].  Creating a task only hands the coroutine to the
    loop: the restore coroutine is counted, the timer coroutine is appended
    suspended at its sleep. *)
Definition _handle_motion_change (motion_sensor_id : string) (s : Loop) : result Loop :=
  if negb (_enabled (self s)) then Return s
  else
    match _motion_active (self s) !! motion_sensor_id with
    | None => Raise KeyError
    | Some true =>
        let s1 :=
          match _restore_timers (self s) !! motion_sensor_id with
          | Some timer =>
              {| self := set_restore_timers
                           (delete motion_sensor_id (_restore_timers (self s))) (self s);
                 timer_tasks := cancel timer (timer_tasks s);
                 restore_tasks := restore_tasks s |}
          | None => s
          end in
        Return {| self := self s1; timer_tasks := timer_tasks s1;
                  restore_tasks := S (restore_tasks s1) |}
    | Some false =>
        let delay := default DEFAULT_DELAY (delay (entry_data (self s))) in
        if (0 <? delay)%Z then
          let timer := length (timer_tasks s) in
          Return {| self := set_restore_timers
                              (<[motion_sensor_id := timer]> (_restore_timers (self s))) (self s);
                    timer_tasks := timer_tasks s ++ [mk_task motion_sensor_id delay Sleeping false];
                    restore_tasks := restore_tasks s |}
        else Return s
    end.

(** The listener [handle_motion] on a state-changed event carrying
    [entity_id] and [new_state] ([None], or the state string). *)
Definition handle_motion (entity_id : string) (new_state : option string) (s : Loop) : result Loop :=
  match _motion_active (self s) !! entity_id with
  | None => Return s
  | Some _ =>
      match new_state with
      | None => Return s
      | Some state =>
          _handle_motion_change entity_id
            (set_self (set_motion_active
                         (<[entity_id := String.eqb state STATE_ON]> (_motion_active (self s)))
                         (self s)) s)
      end
  end.

(** [finally: self._restore_timers.pop(motion_sensor_id, None)], after which
    the coroutine is over. *)
Definition timer_finish (tid : nat) (t : TimerTask) (s : Loop) : Loop :=
  {| self := set_restore_timers (delete (t_sensor t) (_restore_timers (self s))) (self s);
     timer_tasks := <[tid := set_phase Finished t]> (timer_tasks s);
     restore_tasks := restore_tasks s |}.

(** The [for light_id in ...] loop from the lights still to do: issue the next
    call and suspend on it, or leave the loop, fire the event and finish. *)
Definition turn_off_loop (tid : nat) (t : TimerTask) (remaining : list string) (s : Loop) : Loop * list effect :=
  match remaining with
  | light_id :: rest =>
      (set_timer_tasks (<[tid := set_phase (TurningOff light_id rest) t]> (timer_tasks s)) s,
       [Call "light" "turn_off" (EntityId light_id)])
  | [] =>
      (timer_finish tid t s,
       [Fire EVENT_RESTORATION_CANCELLED (AreaData (_area (self s)))])
  end.

(** [_handle_delay_timer], one resumption of task [tid]: from the [await]
    where it is suspended to the next [await] or to its end.  A pending
    cancellation is delivered as [CancelledError] at the [await] (caught,
    [finally] runs); a failed call propagates ([finally] runs); otherwise the
    sleep is over or the awaited call has returned. *)
Definition _handle_delay_timer (w : World) (tid : nat) (s : Loop) : Loop * list effect :=
  match timer_tasks s !! tid with
  | None => (s, [])
  | Some t =>
      match t_phase t with
      | Finished => (s, [])
      | Sleeping =>
          if t_cancelled t then (timer_finish tid t s, [])
          else if negb (any_active (_motion_active (self s)))
               then turn_off_loop tid t (lights (entry_data (self s))) s
               else (timer_finish tid t s, [])
      | TurningOff light_id rest =>
          if t_cancelled t then (timer_finish tid t s, [])
          else if call_ok w "light" "turn_off" (EntityId light_id)
               then turn_off_loop tid t rest s
               else (timer_finish tid t s, [])
      end
  end.

(** ** Administration services *)

Definition _handle_add_time_slot (start end_ : string) (m : Manager) : Manager * list effect :=
  let new_slot := mk_slot start end_ in
  let time_slots := get_time_slots (entry_data m) ++ [new_slot] in
  (set_entry_data (with_time_slots time_slots (entry_data m)) m,
   [Fire EVENT_TIME_SLOT_ADDED (SlotData (_area m) new_slot)]).

Definition _handle_remove_time_slot (start end_ : string) (m : Manager) : Manager * list effect :=
  let slot_to_remove := mk_slot start end_ in
  let time_slots := filter (λ slot, slot ≠ slot_to_remove) (get_time_slots (entry_data m)) in
  (set_entry_data (with_time_slots time_slots (entry_data m)) m,
   [Fire EVENT_TIME_SLOT_REMOVED (SlotData (_area m) slot_to_remove)]).

(** [if area := call.data.get(CONF_AREA): if area != self._area: return]:
    an absent or empty area addresses every manager. *)
Definition other_area (call_area : option string) (m : Manager) : bool :=
  match call_area with
  | None => false
  | Some a => if String.eqb a "" then false else negb (String.eqb a (_area m))
  end.

Definition _handle_enable (call_area : option string) (m : Manager) : Manager :=
  if other_area call_area m then m else set_enabled true m.

Definition _handle_disable (call_area : option string) (s : Loop) : Loop :=
  if other_area call_area (self s) then s
  else
    {| self := set_restore_timers ∅ (set_enabled false (self s));
       timer_tasks := foldr cancel (timer_tasks s) (map_to_list (_restore_timers (self s))).*2;
       restore_tasks := restore_tasks s |}.

(** ** The event loop *)

(** What the loop runs next: a bus event, the periodic scan, one of the four
    services, a created [_restore_lights] task, or the resumption of a timer
    task (its sleep is over, its awaited call has returned, or a requested
    cancellation is delivered). *)
Inductive loop_event :=
| StateChanged (entity_id : string) (new_state : option string)
| IntervalScan
| AddTimeSlot (start end_ : string)
| RemoveTimeSlot (start end_ : string)
| Enable (call_area : option string)
| Disable (call_area : option string)
| RestoreTask
| TimerResume (tid : nat).

Section EventLoop.
Context `{Host}.

(** One callback run to its next suspension, in the world [w] of that moment.
    An exception leaving a callback or a task is logged by the loop. *)
Definition step (w : World) (ev : loop_event) (s : Loop) : Loop * list effect :=
  match ev with
  | StateChanged entity_id new_state =>
      match handle_motion entity_id new_state s with
      | Return s' => (s', [])
      | Raise _ => (s, [])
      end
  | IntervalScan => (s, (_handle_interval_scan w (self s)).1)
  | AddTimeSlot start end_ =>
      let '(m, es) := _handle_add_time_slot start end_ (self s) in (set_self m s, es)
  | RemoveTimeSlot start end_ =>
      let '(m, es) := _handle_remove_time_slot start end_ (self s) in (set_self m s, es)
  | Enable call_area => (set_self (_handle_enable call_area (self s)) s, [])
  | Disable call_area => (_handle_disable call_area s, [])
  | RestoreTask =>
      match restore_tasks s with
      | 0 => (s, [])
      | S n =>
          ({| self := self s; timer_tasks := timer_tasks s; restore_tasks := n |},
           (_restore_lights w (self s)).1)
      end
  | TimerResume tid => _handle_delay_timer w tid s
  end.

(** A schedule run from [s]: the final state and, per event, what it issued. *)
Fixpoint run (evs : list (World * loop_event)) (s : Loop) : Loop * list (loop_event * list effect) :=
  match evs with
  | [] => (s, [])
  | (w, ev) :: rest =>
      let '(s1, es) := step w ev s in
      let '(s2, tr) := run rest s1 in
      (s2, (ev, es) :: tr)
  end.

(** The states the loop can be in after [async_setup] of an entry with data [d]. *)
Inductive reachable (d : ConfigEntryData) : Loop → Prop :=
| reachable_setup : reachable d (async_setup d)
| reachable_step w ev s : reachable d s → reachable d (step w ev s).1.

(** Task [tid] resumed [n] times in a row in the world [w]. *)
Fixpoint resume_n (w : World) (tid : nat) (n : nat) (s : Loop) : Loop * list effect :=
  match n with
  | 0 => (s, [])
  | S n' =>
      let '(s1, es) := _handle_delay_timer w tid s in
      let '(s2, es') := resume_n w tid n' s1 in
      (s2, es ++ es')
  end.

End EventLoop.

(** ** Reading traces *)

Definition is_turn_off (e : effect) : bool :=
  match e with
  | Call domain service _ => String.eqb domain "light" && String.eqb service "turn_off"
  | Fire _ _ => false
  end.

Definition is_fire (event_type : string) (e : effect) : bool :=
  match e with
  | Fire ty _ => String.eqb ty event_type
  | Call _ _ _ => false
  end.

(** Everything issued along a trace, in order. *)
Definition issued (tr : list (loop_event * list effect)) : list effect :=
  concat tr.*2.

(** What the resumptions of timer task [tid] issued along a trace. *)
Definition issued_by_timer (tid : nat) (tr : list (loop_event * list effect)) : list effect :=
  concat (omap (λ '(ev, es), match ev with
                             | TimerResume tid' => if decide (tid' = tid) then Some es else None
                             | _ => None
                             end) tr).

(** The turn-off calls of a full pass over [ls], then the cancellation event. *)
Definition turn_off_all (ls : list string) (a : string) : list effect :=
  ((λ light_id, Call "light" "turn_off" (EntityId light_id)) <$> ls)
    ++ [Fire EVENT_RESTORATION_CANCELLED (AreaData a)].

Definition task_finished (tid : nat) (s : Loop) : Prop :=
  ∃ t, timer_tasks s !! tid = Some t ∧ t_phase t = Finished.

(** ** A concrete host, for closed examples *)

(** [str.split(sep)] for a one-character separator. *)
Fixpoint split_on (sep : Ascii.ascii) (s : string) : list string :=
  match s with
  | EmptyString => [""]
  | String c rest =>
      let parts := split_on sep rest in
      if Ascii.eqb c sep then "" :: parts
      else match parts with
           | p :: ps => String c p :: ps
           | [] => [String c ""]
           end
  end.

Fixpoint decimal_acc (acc : nat) (s : string) : option nat :=
  match s with
  | EmptyString => Some acc
  | String c rest =>
      let n := Ascii.nat_of_ascii c in
      if (48 <=? n) && (n <=? 57) then decimal_acc (acc * 10 + (n - 48)) rest
      else None
  end.

(** [int(s)] on a non-empty run of ASCII digits; anything else is refused
    here (the builtin also takes a sign, blanks and underscores). *)
Definition decimal (s : string) : option nat :=
  match s with
  | EmptyString => None
  | _ => decimal_acc 0 s
  end.

(** The host's [parse_time] on digit fields: [H:M] or [H:M:S], the fields in
    range for [datetime.time]; [None] otherwise. *)
Definition hms_parse_time (s : string) : option time :=
  match split_on ":"%char s with
  | h :: m :: rest =>
      hh ← decimal h;
      mm ← decimal m;
      ss ← match rest with
           | sec :: _ => decimal sec
           | [] => Some 0
           end;
      if (hh <? 24) && (mm <? 60) && (ss <? 60) then Some (mk_time hh mm ss 0) else None
  | _ => None
  end.

(** [float] on a run of digits. *)
Definition decimal_float (s : string) : option pyfloat :=
  n ← decimal s; Some (Finite (Z.of_nat n # 1)).

Definition plain_host : Host :=
  {| parse_time := hms_parse_time; float := decimal_float |}.

(** An entry like the one the configuration flow stores: two lights, two
    motion sensors, one illuminance sensor, window 08:00 to 22:00, threshold
    10 lux, delay 5 s. *)
Definition hall_data : ConfigEntryData :=
  {| area := "hall";
     lights := ["light.hall"; "light.stairs"];
     motion_sensors := ["binary_sensor.hall"; "binary_sensor.stairs"];
     illuminance_sensors := Some ["sensor.hall_lux"];
     illuminance_threshold := Some (10 # 1);
     delay := Some 5%Z;
     time_slots := Some [mk_slot "08:00:00" "22:00:00"] |}.

(** 09:00 with [lux] on the illuminance sensor; service calls complete iff [ok]. *)
Definition hall_world (lux : string) (ok : bool) : World :=
  {| now := mk_time 9 0 0 0;
     states := {["sensor.hall_lux" := lux]};
     call_ok := λ _ _ _, ok |}.

Definition hall : Loop := async_setup hall_data.

(** ** Specification predicates *)

Section Predicates.
Context `{Host}.

(** Both strings of the slot are times of day. *)
Definition slot_well_formed (slot : time_slot) : Prop :=
  is_Some (parse_time (start_time slot)) ∧ is_Some (parse_time (end_time slot)).

(** [slot.start <= t <= slot.end] on the parsed times. *)
Definition slot_contains (t : time) (slot : time_slot) : Prop :=
  ∃ start end_,
    parse_time (start_time slot) = Some start ∧
    parse_time (end_time slot) = Some end_ ∧
    time_le start t = true ∧ time_le t end_ = true.

(** The sensor has a state, the state is numeric, and it is above the threshold. *)
Definition reading_exceeds (w : World) (threshold : Q) (sensor_id : string) : Prop :=
  ∃ state v,
    states w !! sensor_id = Some state ∧
    float state = Some v ∧
    float_gt v threshold = true.

(** The three guards of [_restore_lights]. *)
Definition restore_guards (w : World) (m : Manager) : Prop :=
  _enabled m = true ∧
  _is_in_active_time_slot w (entry_data m) = Return true ∧
  _check_illuminance w (entry_data m) = true.

End Predicates.

Definition restore_call (m : Manager) : effect :=
  Call "light_state_management" "restore_state" (EntityIds (lights (entry_data m))).

Definition restoration_triggered (m : Manager) : effect :=
  Fire EVENT_RESTORATION_TRIGGERED (AreaData (_area m)).

(** The threshold [_check_illuminance] compares with. *)
Definition threshold_of (d : ConfigEntryData) : Q :=
  default DEFAULT_ILLUMINANCE_THRESHOLD (illuminance_threshold d).

(** The manager tracks exactly the motion sensors of the entry it was set up
    with, and the entry still lists them. *)
Definition tracks_sensors (d : ConfigEntryData) (s : Loop) : Prop :=
  motion_sensors (entry_data (self s)) = motion_sensors d ∧
  ∀ entity_id, is_Some (_motion_active (self s) !! entity_id) ↔ entity_id ∈ motion_sensors d.

(** Every handle kept in [_restore_timers] is a task of the loop, created for
    that sensor, and not finished. *)
Definition timers_wf (s : Loop) : Prop :=
  ∀ sensor_id tid, _restore_timers (self s) !! sensor_id = Some tid →
    ∃ t, timer_tasks s !! tid = Some t ∧ t_sensor t = sensor_id ∧ t_phase t ≠ Finished.

(** Task [tid] has been cancelled or is over. *)
Definition silenced (tid : nat) (s : Loop) : Prop :=
  ∃ t, timer_tasks s !! tid = Some t ∧ (t_cancelled t = true ∨ t_phase t = Finished).

(** The call addresses this manager: no area, an empty one, or its own. *)
Definition addressed (call_area : option string) (m : Manager) : Prop :=
  call_area = None ∨ call_area = Some "" ∨ call_area = Some (_area m).

(** The hall sensor has gone inactive: its timer is pending, asleep. *)
Definition one_pending : Loop :=
  (@run plain_host
     [(hall_world "5" true, StateChanged "binary_sensor.hall" (Some "off"))] hall).1.

(** Two sensors go inactive one after the other in the hall: two timers pending. *)
Definition two_pending : Loop :=
  (@run plain_host
     [(hall_world "5" true, StateChanged "binary_sensor.hall" (Some "off"));
      (hall_world "5" true, StateChanged "binary_sensor.stairs" (Some "off"))] hall).1.

(** The same sensor reports a state other than [on] twice in a row (an
    attribute update, or [off] then [unavailable]); then both sleeps elapse
    and every turn-off call returns. *)
Definition rearm_events : list (World * loop_event) :=
  [(hall_world "5" true, StateChanged "binary_sensor.hall" (Some "off"));
   (hall_world "5" true, StateChanged "binary_sensor.hall" (Some "unavailable"))].

Definition both_elapse : list (World * loop_event) :=
  [(hall_world "5" true, TimerResume 0); (hall_world "5" true, TimerResume 0);
   (hall_world "5" true, TimerResume 0);
   (hall_world "5" true, TimerResume 1); (hall_world "5" true, TimerResume 1);
   (hall_world "5" true, TimerResume 1)].

(** An upper bound on the resumptions task [t] still needs to finish: one for
    the sleep and one per turn-off call still to return. *)
Definition resumptions_left (s : Loop) (t : TimerTask) : nat :=
  match t_phase t with
  | Sleeping => S (length (lights (entry_data (self s))))
  | TurningOff _ rest => S (length rest)
  | Finished => 0
  end.

(** ** Further predicates and examples *)

Section MorePredicates.
Context `{Host}.

(** Both strings are times of day and the end is before the start (a span
    over midnight, such as 22:00 to 06:00). *)
Definition slot_inverted (slot : time_slot) : Prop :=
  ∃ start end_,
    parse_time (start_time slot) = Some start ∧
    parse_time (end_time slot) = Some end_ ∧
    time_le start end_ = false.

End MorePredicates.

Definition is_call (e : effect) : bool :=
  match e with
  | Call _ _ _ => true
  | Fire _ _ => false
  end.

(** [d] with other illuminance sensors and another threshold. *)
Definition with_illuminance (sensors : option (list string)) (threshold : option Q)
    (d : ConfigEntryData) : ConfigEntryData :=
  {| area := area d;
     lights := lights d;
     motion_sensors := motion_sensors d;
     illuminance_sensors := sensors;
     illuminance_threshold := threshold;
     delay := delay d;
     time_slots := time_slots d |}.

(** [d] with another delay. *)
Definition with_delay (dl : option Z) (d : ConfigEntryData) : ConfigEntryData :=
  {| area := area d;
     lights := lights d;
     motion_sensors := motion_sensors d;
     illuminance_sensors := illuminance_sensors d;
     illuminance_threshold := illuminance_threshold d;
     delay := dl;
     time_slots := time_slots d |}.

(** The hall with a single window over midnight. *)
Definition night_data : ConfigEntryData :=
  with_time_slots [mk_slot "22:00:00" "06:00:00"] hall_data.

(** 23:30, inside the night as a person reads it. *)
Definition night_world : World :=
  {| now := mk_time 23 30 0 0;
     states := {["sensor.hall_lux" := "5"]};
     call_ok := λ _ _ _, true |}.

(** Service calls complete except the turn-off of the stairs light. *)
Definition stairs_fail_world : World :=
  {| now := mk_time 9 0 0 0;
     states := {["sensor.hall_lux" := "5"]};
     call_ok := λ _ _ data, match data with
                            | EntityId id => negb (String.eqb id "light.stairs")
                            | EntityIds _ => true
                            end |}.

(** Every stored handle is a task of the loop for that sensor that is neither
    finished nor cancelled. *)
Definition timers_pending (s : Loop) : Prop :=
  ∀ sensor_id tid, _restore_timers (self s) !! sensor_id = Some tid →
    ∃ t, timer_tasks s !! tid = Some t ∧ t_sensor t = sensor_id ∧
         t_phase t ≠ Finished ∧ t_cancelled t = false.

(** No sensor is marked active and nothing has been handed to the loop. *)
Definition quiet (s : Loop) : Prop :=
  any_active (_motion_active (self s)) = false ∧
  timer_tasks s = [] ∧
  restore_tasks s = 0.

Definition is_state_changed (ev : loop_event) : bool :=
  match ev with
  | StateChanged _ _ => true
  | _ => false
  end.

(** What an event of each kind can issue in state [s]. *)
Definition may_issue (ev : loop_event) (s : Loop) (e : effect) : Prop :=
  match ev with
  | TimerResume _ =>
      (∃ light_id, e = Call "light" "turn_off" (EntityId light_id)) ∨
      e = Fire EVENT_RESTORATION_CANCELLED (AreaData (_area (self s)))
  | IntervalScan | RestoreTask =>
      e = restore_call (self s) ∨ e = restoration_triggered (self s)
  | AddTimeSlot start end_ =>
      e = Fire EVENT_TIME_SLOT_ADDED (SlotData (_area (self s)) (mk_slot start end_))
  | RemoveTimeSlot start end_ =>
      e = Fire EVENT_TIME_SLOT_REMOVED (SlotData (_area (self s)) (mk_slot start end_))
  | StateChanged _ _ | Enable _ | Disable _ => False
  end.

(** The hall entry with the off-delay set to zero. *)
Definition no_delay_data : ConfigEntryData := with_delay (Some 0%Z) hall_data.

(** A morning without any state-changed event. *)
Definition eventless : list (World * loop_event) :=
  [(hall_world "5" true, IntervalScan);
   (hall_world "5" true, AddTimeSlot "06:00:00" "07:00:00");
   (hall_world "5" true, RestoreTask);
   (hall_world "5" true, TimerResume 0);
   (hall_world "5" true, Disable None);
   (hall_world "5" true, Enable None);
   (hall_world "5" true, IntervalScan)].

(** ** Unloading, and the registry of managers *)

Definition SERVICE_ADD_TIME_SLOT := "add_time_slot".
Definition SERVICE_REMOVE_TIME_SLOT := "remove_time_slot".
Definition SERVICE_ENABLE := "enable".
Definition SERVICE_DISABLE := "disable".

(** What unloading asks of the host's registries. *)
Inductive host_action :=
| CancelScanInterval                 (* [self._cancel_scan_interval()] *)
| RemoveService (service : string).  (* [hass.services.async_remove(DOMAIN, service)] *)

(** [async_unload] of a manager whose [async_setup] has run (so the scan
    interval is tracked).  The stored timers are cancelled; the handles stay in
    [_restore_timers], and nothing else of the manager is assigned. *)
Definition async_unload (s : Loop) : Loop * list host_action :=
  ({| self := self s;
      timer_tasks := foldr cancel (timer_tasks s) (map_to_list (_restore_timers (self s))).*2;
      restore_tasks := restore_tasks s |},
   [CancelScanInterval;
    RemoveService SERVICE_ADD_TIME_SLOT;
    RemoveService SERVICE_REMOVE_TIME_SLOT;
    RemoveService SERVICE_ENABLE;
    RemoveService SERVICE_DISABLE]).

(** [async_setup_entry] on [hass.data.get(DOMAIN)]: the registry of managers
    by entry id, absent until the first entry is set up.  Returns [True]. *)
Definition async_setup_entry (entry_id : string) (d : ConfigEntryData)
    (domain_data : option (gmap string Loop)) : option (gmap string Loop) * bool :=
  (Some (<[entry_id := async_setup d]> (default ∅ domain_data)), true).

(** [async_unload_entry]: [hass.data[DOMAIN].pop(entry.entry_id)] raises when
    the registry or the id is missing; otherwise the manager leaves the
    registry and is unloaded.  Returns the registry, the unloaded manager,
    what was asked of the host, and [True]. *)
Definition async_unload_entry (entry_id : string) (domain_data : option (gmap string Loop))
    : result (option (gmap string Loop) * Loop * list host_action * bool) :=
  match domain_data with
  | None => Raise KeyError
  | Some registry =>
      match registry !! entry_id with
      | None => Raise KeyError
      | Some manager =>
          let '(unloaded, asked) := async_unload manager in
          Return (Some (delete entry_id registry), unloaded, asked, true)
      end
  end.

(** ** config_flow.py: the configuration flow *)

(** The input of the first form after its schema: the required keys, the
    optional key without default, and the optional keys the schema fills
    with their defaults. *)
Record UserInput := mk_user_input {
  ui_area : string;
  ui_lights : list string;
  ui_motion_sensors : list string;
  ui_illuminance_sensors : option (list string);
  ui_illuminance_threshold : Q;
  ui_delay : Z;
  ui_transition : Q;
}.

(** The input of the time-slot form after its schema. *)
Record SlotInput := mk_slot_input {
  si_start_time : string;
  si_end_time : string;
  add_another : bool;
}.

(** [LightStateRestorationConfigFlow]: [_data] is [None] while the dict is
    empty. *)
Record ConfigFlow := mk_flow {
  _data : option UserInput;
  _time_slots : list time_slot;
}.

Inductive FlowResult :=
| ShowForm (step_id : string) (existing_slots : option string)
| CreateEntry (title : string) (data : UserInput) (slots : list time_slot).

(** [__init__] of the flow. *)
Definition flow_init : ConfigFlow := {| _data := None; _time_slots := [] |}.

(** [self._data.update(user_input)]: every key of the input replaces the
    stored one; the optional key stays as stored when the input lacks it. *)
Definition data_update (user_input : UserInput) (data : option UserInput) : UserInput :=
  {| ui_area := ui_area user_input;
     ui_lights := ui_lights user_input;
     ui_motion_sensors := ui_motion_sensors user_input;
     ui_illuminance_sensors :=
       match ui_illuminance_sensors user_input with
       | Some sensors => Some sensors
       | None => data ≫= ui_illuminance_sensors
       end;
     ui_illuminance_threshold := ui_illuminance_threshold user_input;
     ui_delay := ui_delay user_input;
     ui_transition := ui_transition user_input |}.

(** [sep.join(parts)] *)
Fixpoint join (sep : string) (parts : list string) : string :=
  match parts with
  | [] => ""
  | [p] => p
  | p :: rest => p +:+ sep +:+ join sep rest
  end.

Definition newline : string := String (Ascii.ascii_of_nat 10) "".

(** The [existing_slots] placeholder: one line per stored slot, or the
    fallback when the joined text is empty. *)
Definition existing_slots_text (slots : list time_slot) : string :=
  let text := join newline
                ((λ slot, "- " +:+ start_time slot +:+ " to " +:+ end_time slot) <$> slots) in
  if String.eqb text "" then "No time slots configured" else text.

(** [async_step_time_slots].  The call it makes on itself carries no input
    and only shows the form again. *)
Definition async_step_time_slots (user_input : option SlotInput) (f : ConfigFlow)
    : result (ConfigFlow * FlowResult) :=
  match user_input with
  | Some input =>
      if add_another input then
        let f' := {| _data := _data f;
                     _time_slots := _time_slots f ++
                                      [mk_slot (si_start_time input) (si_end_time input)] |} in
        Return (f', ShowForm "time_slots" (Some (existing_slots_text (_time_slots f'))))
      else
        match _data f with
        | None => Raise KeyError
        | Some data =>
            Return (f, CreateEntry ("Light Restoration - " +:+ ui_area data) data (_time_slots f))
        end
  | None => Return (f, ShowForm "time_slots" (Some (existing_slots_text (_time_slots f))))
  end.

(** [async_step_user] *)
Definition async_step_user (user_input : option UserInput) (f : ConfigFlow)
    : result (ConfigFlow * FlowResult) :=
  match user_input with
  | Some input =>
      async_step_time_slots None
        {| _data := Some (data_update input (_data f)); _time_slots := _time_slots f |}
  | None => Return (f, ShowForm "user" None)
  end.

(** The time-slot form submitted again and again until the flow creates the
    entry; what is submitted after that is not looked at. *)
Fixpoint submit_time_slots (inputs : list SlotInput) (f : ConfigFlow)
    : result (ConfigFlow * option FlowResult) :=
  match inputs with
  | [] => Return (f, None)
  | input :: rest =>
      match async_step_time_slots (Some input) f with
      | Raise e => Raise e
      | Return (f', CreateEntry title data slots) => Return (f', Some (CreateEntry title data slots))
      | Return (f', ShowForm _ _) => submit_time_slots rest f'
      end
  end.

(** The [entry.data] of an entry the flow created (the manager does not read
    the transition). *)
Definition entry_data_of (data : UserInput) (slots : list time_slot) : ConfigEntryData :=
  {| area := ui_area data;
     lights := ui_lights data;
     motion_sensors := ui_motion_sensors data;
     illuminance_sensors := ui_illuminance_sensors data;
     illuminance_threshold := Some (ui_illuminance_threshold data);
     delay := Some (ui_delay data);
     time_slots := Some slots |}.

Definition slot_of (input : SlotInput) : time_slot :=
  mk_slot (si_start_time input) (si_end_time input).

(** The first form filled for the hall. *)
Definition hall_input : UserInput :=
  {| ui_area := "hall";
     ui_lights := ["light.hall"; "light.stairs"];
     ui_motion_sensors := ["binary_sensor.hall"; "binary_sensor.stairs"];
     ui_illuminance_sensors := Some ["sensor.hall_lux"];
     ui_illuminance_threshold := 10 # 1;
     ui_delay := 5;
     ui_transition := 1 # 1 |}.

(** The restore call or the event that follows it. *)
Definition is_restoration (e : effect) : bool :=
  match e with
  | Call domain service _ =>
      String.eqb domain "light_state_management" && String.eqb service "restore_state"
  | Fire event_type _ => String.eqb event_type EVENT_RESTORATION_TRIGGERED
  end.

Definition is_add_time_slot (ev : loop_event) : bool :=
  match ev with
  | AddTimeSlot _ _ => true
  | _ => false
  end.

(** A day of motion in the hall, with no slot ever added. *)
Definition motion_day : list (World * loop_event) :=
  [(hall_world "5" true, StateChanged "binary_sensor.hall" (Some "on"));
   (hall_world "5" true, RestoreTask);
   (hall_world "5" true, IntervalScan);
   (hall_world "5" true, StateChanged "binary_sensor.hall" (Some "off"));
   (hall_world "5" true, TimerResume 0);
   (hall_world "5" true, RemoveTimeSlot "08:00:00" "22:00:00")].

(** The rule is disabled after the same sensor has armed twice. *)
Definition rearm_then_disable : list (World * loop_event) :=
  rearm_events ++ [(hall_world "5" true, Disable None)].

(** * Theorems *)

(** ** The time window *)

Lemma time_cmp_refl (t : time) : time_cmp t t = Eq.
Proof. unfold time_cmp. by rewrite !Nat.compare_refl. Qed.

Lemma time_le_refl (t : time) : time_le t t = true.
Proof. unfold time_le. by rewrite time_cmp_refl. Qed.

Section TimeWindow.
Context `{Host}.

Lemma time_slot_loop_true (t : time) (L : list time_slot) :
  time_slot_loop t L = Return true → ∃ slot, slot ∈ L ∧ slot_contains t slot.
Proof.
  induction L as [|slot L IH]; simpl; [done|].
  destruct (parse_time (start_time slot)) as [start|] eqn:Hs; [|done].
  destruct (time_le start t) eqn:Hle1.
  - destruct (parse_time (end_time slot)) as [end_|] eqn:He; [|done].
    destruct (time_le t end_) eqn:Hle2.
    + intros _. exists slot. split; [left|]. by exists start, end_.
    + intros [s' [Hin Hc]]%IH. exists s'. split; [by right|done].
  - intros [s' [Hin Hc]]%IH. exists s'. split; [by right|done].
Qed.

Lemma time_slot_loop_well_formed (t : time) (L : list time_slot) :
  Forall slot_well_formed L →
  (time_slot_loop t L = Return true ∧ ∃ slot, slot ∈ L ∧ slot_contains t slot) ∨
  (time_slot_loop t L = Return false ∧ ¬ ∃ slot, slot ∈ L ∧ slot_contains t slot).
Proof.
  intros Hwf. induction Hwf as [|slot L [[start Hs] [end_ He]] Hwf IH]; simpl.
  - right. split; [done|]. intros [slot [Hin _]]. by apply elem_of_nil in Hin.
  - rewrite Hs, He.
    assert (Hhere : time_le start t = true ∧ time_le t end_ = true → slot_contains t slot).
    { intros [? ?]. by exists start, end_. }
    assert (Hnot : ¬ (time_le start t = true ∧ time_le t end_ = true) →
                   ¬ slot_contains t slot).
    { intros Hn (s' & e' & Hs' & He' & ? & ?). apply Hn. by simplify_eq. }
    destruct (time_le start t) eqn:Hle1; [destruct (time_le t end_) eqn:Hle2|].
    + left. split; [done|]. exists slot. split; [left|]. by apply Hhere.
    + destruct IH as [[-> [s' [Hin Hc]]]|[-> Hno]].
      * left. split; [done|]. exists s'. split; [by right|done].
      * right. split; [done|]. intros [s' [Hin Hc]].
        apply elem_of_cons in Hin as [->|Hin].
        -- revert Hc. apply Hnot. by intros [_ ?].
        -- apply Hno. by exists s'.
    + destruct IH as [[-> [s' [Hin Hc]]]|[-> Hno]].
      * left. split; [done|]. exists s'. split; [by right|done].
      * right. split; [done|]. intros [s' [Hin Hc]].
        apply elem_of_cons in Hin as [->|Hin].
        -- revert Hc. apply Hnot. by intros [? _].
        -- apply Hno. by exists s'.
Qed.

End TimeWindow.

Section TimeWindowClaim.
Context `{Host}.

(** C5.  For every current time and every list of slots whose strings are
    times of day, [_is_in_active_time_slot] returns, and it returns [True]
    exactly when some slot has [start <= now <= end]; both ends are inclusive
    (a slot that starts and ends at [now] matches), and with no slot it
    returns [False]. *)
Theorem is_in_active_time_slot_iff (w : World) (d : ConfigEntryData) :
  Forall slot_well_formed (get_time_slots d) →
  (_is_in_active_time_slot w d = Return true ↔
     ∃ slot, slot ∈ get_time_slots d ∧ slot_contains (now w) slot) ∧
  (_is_in_active_time_slot w d = Return false ↔
     ¬ ∃ slot, slot ∈ get_time_slots d ∧ slot_contains (now w) slot) ∧
  (get_time_slots d = [] → _is_in_active_time_slot w d = Return false) ∧
  (∀ slot, get_time_slots d = [slot] →
     parse_time (start_time slot) = Some (now w) →
     parse_time (end_time slot) = Some (now w) →
     _is_in_active_time_slot w d = Return true).
Proof.
  intros Hwf. unfold _is_in_active_time_slot.
  pose proof (time_slot_loop_well_formed (now w) _ Hwf) as Hloop.
  split_and!.
  - split; [apply time_slot_loop_true|].
    intros Hex. destruct Hloop as [[Ht _]|[_ Hno]]; [done|by destruct Hno].
  - split.
    + intros Hf Hex. destruct Hloop as [[Ht _]|[_ Hno]]; [congruence|by apply Hno].
    + intros Hno. destruct Hloop as [[_ Hex]|[Hf _]]; [by destruct Hno|done].
  - by intros ->.
  - intros slot -> Hs He. simpl. by rewrite Hs, He, !time_le_refl.
Qed.

End TimeWindowClaim.

Lemma is_in_active_time_slot_iff_witness :
  Forall (@slot_well_formed plain_host) (get_time_slots hall_data) ∧
  @_is_in_active_time_slot plain_host (hall_world "5" true) hall_data = Return true.
Proof.
  assert (Hwf : Forall (@slot_well_formed plain_host) (get_time_slots hall_data)).
  { repeat constructor; by eexists. }
  split; [exact Hwf|].
  apply (@is_in_active_time_slot_iff plain_host (hall_world "5" true) hall_data Hwf).
  exists (mk_slot "08:00:00" "22:00:00"). split; [left|].
  by exists (mk_time 8 0 0 0), (mk_time 22 0 0 0).
Defined.

(** ** The illuminance gate *)

Lemma float_gt_finite (q threshold : Q) :
  float_gt (Finite q) threshold = true ↔ (threshold < q)%Q.
Proof.
  simpl. rewrite negb_true_iff. split.
  - intros Hle. apply Qnot_le_lt. intros Hq. apply Qle_bool_iff in Hq. congruence.
  - intros Hlt. destruct (Qle_bool q threshold) eqn:Hle; [|done].
    apply Qle_bool_iff in Hle. by apply Qlt_not_le in Hlt.
Qed.

Section Illuminance.
Context `{Host}.

Lemma illuminance_loop_false (w : World) (threshold : Q) (sensors : list string) :
  illuminance_loop w threshold sensors = false ↔
  ∃ sensor_id, sensor_id ∈ sensors ∧ reading_exceeds w threshold sensor_id.
Proof.
  induction sensors as [|sensor_id rest IH]; simpl.
  - split; [done|]. intros [? [Hin _]]. by apply elem_of_nil in Hin.
  - assert (Hskip : ¬ reading_exceeds w threshold sensor_id →
              (illuminance_loop w threshold rest = false ↔
               ∃ s, s ∈ sensor_id :: rest ∧ reading_exceeds w threshold s)).
    { intros Hn. rewrite IH. split.
      - intros [s [Hin Hs]]. exists s. split; [by right|done].
      - intros [s [Hin Hs]]. apply elem_of_cons in Hin as [->|Hin]; [done|by exists s]. }
    destruct (states w !! sensor_id) as [state|] eqn:Hst.
    + destruct (float state) as [v|] eqn:Hfl.
      * destruct (float_gt v threshold) eqn:Hgt.
        -- split; [|done]. intros _. exists sensor_id. split; [left|]. by exists state, v.
        -- apply Hskip. intros (st & v' & ? & ? & ?). simplify_eq. congruence.
      * apply Hskip. intros (st & v' & ? & ? & ?). simplify_eq.
    + apply Hskip. intros (st & v' & ? & ? & ?). simplify_eq.
Qed.

(** C6.  [_check_illuminance] returns [True] when no illuminance sensor is
    configured (key absent or list empty), whatever the readings; otherwise
    it returns [False] exactly when some configured sensor has a state that
    [float] accepts and that is above the threshold, strictly.  Sensors
    without a state or with a non-numeric state never block: when no
    configured sensor has such a reading, the result is [True]. *)
Theorem check_illuminance_spec (w : World) (d : ConfigEntryData) :
  (default [] (illuminance_sensors d) = [] → _check_illuminance w d = true) ∧
  (_check_illuminance w d = false ↔
     ∃ sensor_id, sensor_id ∈ default [] (illuminance_sensors d) ∧
                  reading_exceeds w (threshold_of d) sensor_id) ∧
  ((∀ sensor_id, sensor_id ∈ default [] (illuminance_sensors d) →
      states w !! sensor_id = None ∨
      (∃ state, states w !! sensor_id = Some state ∧ float state = None) ∨
      (∃ state v, states w !! sensor_id = Some state ∧ float state = Some v ∧
                  float_gt v (threshold_of d) = false)) →
   _check_illuminance w d = true) ∧
  (∀ q, float_gt (Finite q) (threshold_of d) = true ↔ (threshold_of d < q)%Q).
Proof.
  assert (Hiff : _check_illuminance w d = false ↔
     ∃ sensor_id, sensor_id ∈ default [] (illuminance_sensors d) ∧
                  reading_exceeds w (threshold_of d) sensor_id).
  { unfold _check_illuminance, threshold_of.
    destruct (illuminance_sensors d) as [[|s sensors]|]; simpl (default _ _).
    - split; [done|]. intros [? [Hin _]]. by apply elem_of_nil in Hin.
    - apply illuminance_loop_false.
    - split; [done|]. intros [? [Hin _]]. by apply elem_of_nil in Hin. }
  split_and!.
  - intros Hnil. apply not_false_iff_true. intros Hc.
    apply Hiff in Hc as [s [Hin _]]. rewrite Hnil in Hin. by apply elem_of_nil in Hin.
  - exact Hiff.
  - intros Hall. apply not_false_iff_true. intros Hc.
    apply Hiff in Hc as (s & Hin & state & v & Hst & Hfl & Hgt).
    destruct (Hall s Hin) as [?|[(st & ? & ?)|(st & v' & ? & ? & ?)]];
      simplify_eq; congruence.
  - intros q. apply float_gt_finite.
Qed.

End Illuminance.

(** ** Restoring *)

Section Restore.
Context `{Host}.

(** C1.  [_restore_lights] issues nothing unless the manager is enabled, the
    time-slot check returns [True] and the illuminance check passes.  When all
    three hold it issues the restore call for the configured lights first and
    fires the restoration-triggered event, with the manager's area, only after
    the call has completed: when the call raises, the exception leaves the
    coroutine and no event is fired. *)
Theorem restore_lights_spec (w : World) (m : Manager) :
  (¬ restore_guards w m → (_restore_lights w m).1 = []) ∧
  (restore_guards w m →
     (call_ok w "light_state_management" "restore_state"
              (EntityIds (lights (entry_data m))) = true →
      _restore_lights w m = ([restore_call m; restoration_triggered m], Return ())) ∧
     (call_ok w "light_state_management" "restore_state"
              (EntityIds (lights (entry_data m))) = false →
      _restore_lights w m = ([restore_call m], Raise ServiceError))) ∧
  ((_restore_lights w m).2 ≠ Return () →
     Forall (λ e, is_fire EVENT_RESTORATION_TRIGGERED e = false) (_restore_lights w m).1).
Proof.
  unfold restore_guards, _restore_lights, restore_call, restoration_triggered.
  destruct (_enabled m); simpl.
  2: { split_and!; [done|intros [? _]; done|done]. }
  destruct (_is_in_active_time_slot w (entry_data m)) as [[|]|e]; simpl.
  2: { split_and!; [done|intros (_ & ? & _); done|done]. }
  2: { split_and!; [done|intros (_ & ? & _); done|by constructor]. }
  destruct (_check_illuminance w (entry_data m)); simpl.
  2: { split_and!; [done|intros (_ & _ & ?); done|done]. }
  unfold async_call.
  destruct (call_ok w _ _ _); simpl.
  - split_and!; [intros Hn; by destruct Hn|done|done].
  - split_and!; [intros Hn; by destruct Hn|done|].
    intros _. by repeat constructor.
Qed.

End Restore.

Lemma restore_lights_spec_witness :
  @restore_guards plain_host (hall_world "5" true) (self hall) ∧
  @_restore_lights plain_host (hall_world "5" true) (self hall) =
    ([Call "light_state_management" "restore_state" (EntityIds ["light.hall"; "light.stairs"]);
      Fire "light_restoration_triggered" (AreaData "hall")], Return ()).
Proof.
  assert (Hg : @restore_guards plain_host (hall_world "5" true) (self hall)).
  { by split_and!. }
  split; [exact Hg|].
  by apply (@restore_lights_spec plain_host (hall_world "5" true) (self hall)).
Defined.

(** ** Time-slot administration *)

(** C3, as the code has it.  [_handle_add_time_slot] neither parses its two
    strings nor compares them: whatever they are, the slot is appended to the
    stored list, the other keys of the entry and the rest of the manager are
    kept, and the time-slot-added event is fired with the area and the new
    slot. *)
Theorem add_time_slot_appends (start end_ : string) (m : Manager) :
  get_time_slots (entry_data (_handle_add_time_slot start end_ m).1) =
    (get_time_slots (entry_data m) ++ [mk_slot start end_]) ∧
  (_handle_add_time_slot start end_ m).2 =
    [Fire EVENT_TIME_SLOT_ADDED (SlotData (_area m) (mk_slot start end_))] ∧
  with_time_slots (get_time_slots (entry_data m))
                  (entry_data (_handle_add_time_slot start end_ m).1) =
    with_time_slots (get_time_slots (entry_data m)) (entry_data m) ∧
  set_entry_data (entry_data m) (_handle_add_time_slot start end_ m).1 = m.
Proof.
  unfold _handle_add_time_slot, get_time_slots. simpl.
  split_and!; try reflexivity. by destruct m.
Qed.

(** C3, counterexample to the rejection: a string that is no time of day, and
    a start after the end, are both stored and announced. *)
Lemma add_time_slot_accepts_invalid :
  hms_parse_time "bogus" = None ∧
  get_time_slots (entry_data (_handle_add_time_slot "bogus" "12:00:00" (self hall)).1) =
    [mk_slot "08:00:00" "22:00:00"; mk_slot "bogus" "12:00:00"] ∧
  (_handle_add_time_slot "bogus" "12:00:00" (self hall)).2 =
    [Fire "time_slot_added" (SlotData "hall" (mk_slot "bogus" "12:00:00"))] ∧
  hms_parse_time "22:00:00" = Some (mk_time 22 0 0 0) ∧
  hms_parse_time "06:00:00" = Some (mk_time 6 0 0 0) ∧
  time_le (mk_time 22 0 0 0) (mk_time 6 0 0 0) = false ∧
  get_time_slots (entry_data (_handle_add_time_slot "22:00:00" "06:00:00" (self hall)).1) =
    [mk_slot "08:00:00" "22:00:00"; mk_slot "22:00:00" "06:00:00"] ∧
  (_handle_add_time_slot "22:00:00" "06:00:00" (self hall)).2 =
    [Fire "time_slot_added" (SlotData "hall" (mk_slot "22:00:00" "06:00:00"))].
Proof. repeat split; vm_compute; reflexivity. Qed.

Lemma filter_ne_absent (x : time_slot) (l : list time_slot) :
  x ∉ l → filter (λ y, y ≠ x) l = l.
Proof.
  induction l as [|y l IH]; [done|].
  intros [Hne Hl]%not_elem_of_cons.
  rewrite filter_cons_True by done. f_equal. by apply IH.
Qed.

(** C8.  [_handle_remove_time_slot] keeps, in order, exactly the stored slots
    that differ from the requested pair: every occurrence of the pair goes;
    when the pair is not stored the list is the same; and the
    time-slot-removed event is fired in every case. *)
Theorem remove_time_slot_spec (start end_ : string) (m : Manager) :
  get_time_slots (entry_data (_handle_remove_time_slot start end_ m).1) =
    filter (λ slot, slot ≠ mk_slot start end_) (get_time_slots (entry_data m)) ∧
  (mk_slot start end_ ∉
     get_time_slots (entry_data (_handle_remove_time_slot start end_ m).1)) ∧
  (∀ slot, slot ≠ mk_slot start end_ →
     (slot ∈ get_time_slots (entry_data (_handle_remove_time_slot start end_ m).1) ↔
      slot ∈ get_time_slots (entry_data m))) ∧
  (mk_slot start end_ ∉ get_time_slots (entry_data m) →
     get_time_slots (entry_data (_handle_remove_time_slot start end_ m).1) =
       get_time_slots (entry_data m)) ∧
  (_handle_remove_time_slot start end_ m).2 =
    [Fire EVENT_TIME_SLOT_REMOVED (SlotData (_area m) (mk_slot start end_))].
Proof.
  assert (Heq : get_time_slots (entry_data (_handle_remove_time_slot start end_ m).1) =
    filter (λ slot, slot ≠ mk_slot start end_) (get_time_slots (entry_data m))) by done.
  rewrite Heq. split_and!.
  - done.
  - intros [Hne _]%list_elem_of_filter. done.
  - intros slot Hne. rewrite list_elem_of_filter. split; [by intros [_ ?]|done].
  - apply filter_ne_absent.
  - done.
Qed.

(** ** The motion listener *)

(** C10.  On a state-changed event without a new state, [handle_motion]
    returns at once for every entity, configured sensors included: the
    manager (occupancy map, timers, enabled flag) and the loop's tasks are
    exactly as before, so that sensor's entry keeps its value, no timer is
    created or cancelled and no restore task is created. *)
Theorem handle_motion_no_new_state `{Host} (w : World) (entity_id : string) (s : Loop) :
  handle_motion entity_id None s = Return s ∧
  step w (StateChanged entity_id None) s = (s, []).
Proof. simpl. unfold handle_motion. by destruct (_ !! entity_id). Qed.

(** ** What every reachable state satisfies *)

Lemma setup_fold_lookup (l : list string) (ma : gmap string bool) (entity_id : string) :
  is_Some (foldl (λ ma sensor_id, <[sensor_id := false]> ma) ma l !! entity_id) ↔
  entity_id ∈ l ∨ is_Some (ma !! entity_id).
Proof.
  revert ma. induction l as [|x l IH]; intros ma; simpl.
  - split; [by right|]. intros [Hin|?]; [by apply elem_of_nil in Hin|done].
  - rewrite IH, elem_of_cons, lookup_insert_is_Some.
    destruct (decide (x = entity_id)) as [->|Hne]; intuition congruence.
Qed.

Lemma cancel_lookup (tid i : nat) (tasks : list TimerTask) (t : TimerTask) :
  tasks !! i = Some t →
  ∃ t', cancel tid tasks !! i = Some t' ∧ t_sensor t' = t_sensor t ∧
        t_phase t' = t_phase t ∧ (t_cancelled t = true → t_cancelled t' = true) ∧
        (i = tid → t_phase t ≠ Finished → t_cancelled t' = true).
Proof.
  intros Hi. unfold cancel. destruct (decide (i = tid)) as [->|Hne].
  - rewrite list_lookup_alter_eq, Hi. simpl.
    destruct (t_phase t) eqn:Hp; eexists; (split; [done|]); simpl; rewrite ?Hp; by split_and!.
  - rewrite list_lookup_alter_ne by done. exists t. by split_and!.
Qed.

Lemma cancel_all_lookup (tids : list nat) (i : nat) (tasks : list TimerTask) (t : TimerTask) :
  tasks !! i = Some t →
  ∃ t', foldr cancel tasks tids !! i = Some t' ∧ t_sensor t' = t_sensor t ∧
        t_phase t' = t_phase t ∧ (t_cancelled t = true → t_cancelled t' = true) ∧
        (i ∈ tids → t_phase t ≠ Finished → t_cancelled t' = true).
Proof.
  intros Hi. induction tids as [|tid tids IH]; simpl.
  - exists t. split_and!; try done. intros Hin. by apply elem_of_nil in Hin.
  - destruct IH as (t1 & H1 & Hs1 & Hp1 & Hc1 & Hin1).
    destruct (cancel_lookup tid i _ t1 H1) as (t2 & H2 & Hs2 & Hp2 & Hc2 & Hin2).
    exists t2. split_and!; [done|congruence|congruence|by auto|].
    intros [->|Hin]%elem_of_cons Hnf.
    + apply Hin2; [done|congruence].
    + apply Hc2. by apply Hin1.
Qed.


(** What [_handle_motion_change] can do to the loop: nothing; forget and
    cancel the sensor's timer and create a restore task; or create a timer
    task and store its handle. *)
Lemma motion_change_cases (sensor_id : string) (s s' : Loop) :
  _handle_motion_change sensor_id s = Return s' →
  self s' = set_restore_timers (_restore_timers (self s')) (self s) ∧
  (s' = s ∨
   (∃ timer, _restore_timers (self s) !! sensor_id = Some timer ∧
      _restore_timers (self s') = delete sensor_id (_restore_timers (self s)) ∧
      timer_tasks s' = cancel timer (timer_tasks s) ∧
      restore_tasks s' = S (restore_tasks s)) ∨
   (_restore_timers (self s') = _restore_timers (self s) ∧
      timer_tasks s' = timer_tasks s ∧ restore_tasks s' = S (restore_tasks s)) ∨
   (∃ delay, _restore_timers (self s') =
               <[sensor_id := length (timer_tasks s)]> (_restore_timers (self s)) ∧
      timer_tasks s' = timer_tasks s ++ [mk_task sensor_id delay Sleeping false] ∧
      restore_tasks s' = restore_tasks s)).
Proof.
  unfold _handle_motion_change. destruct s as [[d a en ma rt] ts n]; simpl.
  destruct en; simpl; [|intros [= <-]; split; [done|by left]].
  destruct (ma !! sensor_id) as [[|]|]; [| |done].
  - destruct (rt !! sensor_id) as [timer|] eqn:Hrt; simpl; intros [= <-]; simpl.
    + split; [done|]. right; left. by exists timer.
    + split; [done|]. right; right; left. done.
  - destruct (0 <? default DEFAULT_DELAY (delay d))%Z; intros [= <-]; simpl.
    + split; [done|]. right; right; right. by eexists.
    + split; [done|]. by left.
Qed.

(** [handle_motion] never raises: the key it subscripts was stored just before. *)
Lemma handle_motion_returns (entity_id : string) (new_state : option string) (s : Loop) :
  ∃ s', handle_motion entity_id new_state s = Return s'.
Proof.
  unfold handle_motion.
  destruct (_motion_active (self s) !! entity_id); [|by eexists].
  destruct new_state as [state|]; [|by eexists].
  unfold _handle_motion_change; simpl.
  destruct (_enabled (self s)); simpl; [|by eexists].
  rewrite lookup_insert_eq.
  destruct (String.eqb state STATE_ON); [by eexists|].
  destruct (0 <? _)%Z; by eexists.
Qed.

(** [handle_motion] either ignores the event or stores the sensor's new
    activity, under a key it already has, and goes on to
    [_handle_motion_change]. *)
Lemma handle_motion_cases (entity_id : string) (new_state : option string) (s s' : Loop) :
  handle_motion entity_id new_state s = Return s' →
  s' = s ∨
  ∃ active, is_Some (_motion_active (self s) !! entity_id) ∧
    _handle_motion_change entity_id
      (set_self (set_motion_active (<[entity_id := active]> (_motion_active (self s)))
                                   (self s)) s) = Return s'.
Proof.
  unfold handle_motion.
  destruct (_motion_active (self s) !! entity_id) eqn:Hl; [|intros [= <-]; by left].
  destruct new_state as [state|]; [|intros [= <-]; by left].
  intros Hm. right. by exists (String.eqb state STATE_ON).
Qed.

Lemma timers_wf_motion_change (sensor_id : string) (s0 s s' : Loop) :
  _restore_timers (self s) = _restore_timers (self s0) →
  timer_tasks s = timer_tasks s0 →
  timers_wf s0 → _handle_motion_change sensor_id s = Return s' → timers_wf s'.
Proof.
  intros Hrt Hts Hwf [_ Hcases]%motion_change_cases. rewrite Hrt, Hts in Hcases.
  intros sid tid Hl.
  destruct Hcases as [->|[(timer & _ & Hrt' & Hts' & _)|[(Hrt' & Hts' & _)|(dl & Hrt' & Hts' & _)]]].
  - rewrite Hrt in Hl. destruct (Hwf sid tid Hl) as (t & ? & ? & ?).
    exists t. by rewrite Hts.
  - rewrite Hrt' in Hl. apply lookup_delete_Some in Hl as [_ Hl].
    destruct (Hwf sid tid Hl) as (t & Ht & Hs & Hp).
    destruct (cancel_lookup timer tid _ t Ht) as (t' & Ht' & Hs' & Hp' & _).
    exists t'. rewrite Hts'. split_and!; [done|congruence|congruence].
  - rewrite Hrt' in Hl. destruct (Hwf sid tid Hl) as (t & ? & ? & ?).
    exists t. by rewrite Hts'.
  - rewrite Hrt' in Hl. rewrite Hts'. apply lookup_insert_Some in Hl as [[<- <-]|[_ Hl]].
    + eexists. split; [by apply list_lookup_middle|]. done.
    + destruct (Hwf sid tid Hl) as (t & Ht & ? & ?).
      exists t. split; [|done]. by apply lookup_app_l_Some.
Qed.

Lemma silenced_motion_change (tid : nat) (sensor_id : string) (s0 s s' : Loop) :
  timer_tasks s = timer_tasks s0 →
  silenced tid s0 → _handle_motion_change sensor_id s = Return s' → silenced tid s'.
Proof.
  intros Hts (t & Ht & Hq) [_ Hcases]%motion_change_cases. rewrite Hts in Hcases.
  destruct Hcases as [->|[(timer & _ & _ & Hts' & _)|[(_ & Hts' & _)|(dl & _ & Hts' & _)]]].
  - exists t. by rewrite Hts.
  - destruct (cancel_lookup timer tid _ t Ht) as (t' & Ht' & _ & Hp' & Hc' & _).
    exists t'. rewrite Hts'. split; [done|]. destruct Hq; [left; auto|right; congruence].
  - exists t. by rewrite Hts'.
  - exists t. rewrite Hts'. split; [|done]. by apply lookup_app_l_Some.
Qed.

(** A resumption leaves the loop as it is, finishes the task, or moves it to
    the next turn-off call. *)
Lemma delay_timer_cases (w : World) (tid : nat) (s : Loop) :
  _handle_delay_timer w tid s = (s, []) ∨
  ∃ t, timer_tasks s !! tid = Some t ∧ t_phase t ≠ Finished ∧
    ((_handle_delay_timer w tid s).1 = timer_finish tid t s ∨
     (t_cancelled t = false ∧ ∃ light_id rest,
        (_handle_delay_timer w tid s).1 =
          set_timer_tasks (<[tid := set_phase (TurningOff light_id rest) t]> (timer_tasks s)) s)).
Proof.
  unfold _handle_delay_timer.
  destruct (timer_tasks s !! tid) as [t|] eqn:Ht; [|by left].
  destruct (t_phase t) as [|light_id rest|] eqn:Hp; [| |by left]; right; exists t;
    (split; [done|]); (split; [congruence|]);
    destruct (t_cancelled t) eqn:Hc; [by left| |by left|].
  - destruct (negb _); [|by left].
    unfold turn_off_loop. destruct (lights _) as [|l ls]; [by left|].
    right. split; [done|]. by exists l, ls.
  - destruct (call_ok _ _ _ _); [|by left].
    unfold turn_off_loop. destruct rest as [|l ls]; [by left|].
    right. split; [done|]. by exists l, ls.
Qed.

Lemma timers_wf_delay_timer (w : World) (tid : nat) (s : Loop) :
  timers_wf s → timers_wf (_handle_delay_timer w tid s).1.
Proof.
  intros Hwf.
  destruct (delay_timer_cases w tid s) as [->|(t & Ht & Hp & [->|(_ & l & rest & ->)])];
    [done| |]; intros sid tid' Hl; simpl in *.
  - apply lookup_delete_Some in Hl as [Hne Hl].
    destruct (Hwf sid tid' Hl) as (t' & Ht' & Hs' & Hp').
    exists t'. split; [|done].
    rewrite list_lookup_insert_ne; [done|]. intros <-. congruence.
  - destruct (Hwf sid tid' Hl) as (t' & Ht' & Hs' & Hp').
    destruct (decide (tid = tid')) as [<-|Hne].
    + eexists. split; [apply list_lookup_insert_eq; by eapply lookup_lt_Some|].
      simpl. split; [congruence|done].
    + exists t'. by rewrite list_lookup_insert_ne.
Qed.

Lemma silenced_delay_timer (w : World) (tid tid' : nat) (s : Loop) :
  silenced tid s → silenced tid (_handle_delay_timer w tid' s).1.
Proof.
  intros (t & Ht & Hq).
  destruct (delay_timer_cases w tid' s) as [->|(t' & Ht' & Hp' & [->|(Hc' & l & rest & ->)])];
    [by exists t| |]; unfold silenced; simpl.
  - destruct (decide (tid' = tid)) as [->|Hne].
    + eexists. split; [apply list_lookup_insert_eq; by eapply lookup_lt_Some|].
      by right.
    + exists t. by rewrite list_lookup_insert_ne.
  - destruct (decide (tid' = tid)) as [->|Hne].
    + simplify_eq. destruct Hq; congruence.
    + exists t. by rewrite list_lookup_insert_ne.
Qed.

(** A cancelled or finished task issues nothing when it is resumed. *)
Lemma silenced_issues_nothing (w : World) (tid : nat) (s : Loop) :
  silenced tid s → (_handle_delay_timer w tid s).2 = [].
Proof.
  intros (t & Ht & Hq). unfold _handle_delay_timer. rewrite Ht.
  destruct (t_phase t); [| |done]; destruct Hq as [->|?]; done.
Qed.

Lemma issued_by_timer_cons (tid : nat) (ev : loop_event) (es : list effect)
    (tr : list (loop_event * list effect)) :
  issued_by_timer tid ((ev, es) :: tr) =
    match ev with
    | TimerResume tid' => if decide (tid' = tid) then es else []
    | _ => []
    end ++ issued_by_timer tid tr.
Proof.
  unfold issued_by_timer. simpl.
  destruct ev as [| | | | | | |tid']; try done. by case_decide.
Qed.

Section Reachable.
Context `{Host}.

Lemma timers_wf_step (w : World) (ev : loop_event) (s : Loop) :
  timers_wf s → timers_wf (step w ev s).1.
Proof.
  intros Hwf. destruct ev as [entity_id new_state| |a b|a b|ca|ca| |tid]; simpl; try done.
  - destruct (handle_motion entity_id new_state s) as [s'|e] eqn:Hm; [|done]. simpl.
    apply handle_motion_cases in Hm as [->|(active & _ & Hm)]; [done|].
    by eapply (timers_wf_motion_change entity_id s), Hm.
  - unfold _handle_enable. by destruct (other_area ca (self s)).
  - unfold _handle_disable. destruct (other_area ca (self s)); [done|].
    intros sid tid Hl. simpl in Hl. by rewrite lookup_empty in Hl.
  - by destruct (restore_tasks s).
  - by apply timers_wf_delay_timer.
Qed.

Lemma silenced_step (w : World) (ev : loop_event) (tid : nat) (s : Loop) :
  silenced tid s → silenced tid (step w ev s).1.
Proof.
  intros Hq. destruct ev as [entity_id new_state| |a b|a b|ca|ca| |tid']; simpl; try done.
  - destruct (handle_motion entity_id new_state s) as [s'|e] eqn:Hm; [|done]. simpl.
    apply handle_motion_cases in Hm as [->|(active & _ & Hm)]; [done|].
    by eapply (silenced_motion_change tid entity_id s), Hm.
  - unfold _handle_disable. destruct (other_area ca (self s)); [done|].
    destruct Hq as (t & Ht & Hq).
    destruct (cancel_all_lookup (map_to_list (_restore_timers (self s))).*2 tid _ t Ht)
      as (t' & Ht' & _ & Hp' & Hc' & _).
    exists t'. split; [done|]. destruct Hq; [left; auto|right; congruence].
  - by destruct (restore_tasks s).
  - by apply silenced_delay_timer.
Qed.

Lemma tracks_sensors_step (d : ConfigEntryData) (w : World) (ev : loop_event) (s : Loop) :
  tracks_sensors d s → tracks_sensors d (step w ev s).1.
Proof.
  intros [Hd Hma]. destruct ev as [entity_id new_state| |a b|a b|ca|ca| |tid]; simpl; try done.
  - destruct (handle_motion entity_id new_state s) as [s'|e] eqn:Hm; [|done]. simpl.
    apply handle_motion_cases in Hm as [->|(active & Hl & Hm)]; [done|].
    apply motion_change_cases in Hm as [Hself _]. unfold tracks_sensors.
    rewrite Hself. simpl. split; [done|]. intros e'. rewrite <- Hma.
    rewrite lookup_insert_is_Some.
    destruct (decide (entity_id = e')) as [<-|Hne]; intuition congruence.
  - unfold _handle_enable. by destruct (other_area ca (self s)).
  - unfold _handle_disable. by destruct (other_area ca (self s)).
  - by destruct (restore_tasks s).
  - destruct (delay_timer_cases w tid s) as [->|(t & _ & _ & [->|(_ & l & rest & ->)])]; done.
Qed.

Lemma reachable_tracks_sensors (d : ConfigEntryData) (s : Loop) :
  reachable d s → tracks_sensors d s.
Proof.
  induction 1 as [|w ev s _ IH]; [|by apply tracks_sensors_step].
  split; [done|]. intros e. simpl. rewrite setup_fold_lookup, lookup_empty.
  split; [intros [?|[? ?]]; done|by left].
Qed.

Lemma reachable_timers_wf (d : ConfigEntryData) (s : Loop) :
  reachable d s → timers_wf s.
Proof.
  induction 1 as [|w ev s _ IH]; [|by apply timers_wf_step].
  intros sid tid Hl. simpl in Hl. by rewrite lookup_empty in Hl.
Qed.

Lemma reachable_run (d : ConfigEntryData) (evs : list (World * loop_event)) (s : Loop) :
  reachable d s → reachable d (run evs s).1.
Proof.
  revert s. induction evs as [|[w ev] evs IH]; intros s Hr; simpl; [done|].
  pose proof (reachable_step d w ev s Hr) as Hr1.
  destruct (step w ev s) as [s1 es]. specialize (IH s1 Hr1).
  by destruct (run evs s1).
Qed.

Lemma silenced_run (tid : nat) (evs : list (World * loop_event)) (s : Loop) :
  silenced tid s → issued_by_timer tid (run evs s).2 = [].
Proof.
  revert s. induction evs as [|[w ev] evs IH]; intros s Hq; simpl; [done|].
  pose proof (silenced_step w ev tid s Hq) as Hq1.
  assert (Hnone : ∀ tid', ev = TimerResume tid' → tid' = tid → (step w ev s).2 = []).
  { intros tid' -> ->. by apply silenced_issues_nothing. }
  destruct (step w ev s) as [s1 es]. specialize (IH s1 Hq1).
  destruct (run evs s1) as [s2 tr]. simpl in *.
  rewrite issued_by_timer_cons, IH, app_nil_r.
  destruct ev as [| | | | | | |tid']; try done.
  case_decide; [|done]. by apply (Hnone tid').
Qed.

(** C9.  In every state the loop can reach, a state-changed event for an
    entity that is not one of the entry's motion sensors leaves the loop as it
    is: occupancy map, timer handles and enabled flag are the same, no timer
    task and no restore task is created or cancelled, and nothing is issued. *)
Theorem handle_motion_unknown_entity
    (d : ConfigEntryData) (w : World) (entity_id : string) (new_state : option string) (s : Loop) :
  reachable d s →
  entity_id ∉ motion_sensors (entry_data (self s)) →
  handle_motion entity_id new_state s = Return s ∧
  step w (StateChanged entity_id new_state) s = (s, []).
Proof.
  intros [Hd Hma]%reachable_tracks_sensors Hnot.
  assert (Hnone : _motion_active (self s) !! entity_id = None).
  { apply eq_None_not_Some. rewrite Hma, <- Hd. done. }
  simpl. unfold handle_motion. by rewrite Hnone.
Qed.

End Reachable.

Lemma handle_motion_unknown_entity_witness :
  @reachable plain_host hall_data hall ∧
  ("sensor.hall_lux" ∉ motion_sensors (entry_data (self hall))) ∧
  handle_motion "sensor.hall_lux" (Some "50") hall = Return hall.
Proof.
  assert (Hr : @reachable plain_host hall_data hall) by constructor.
  assert (Hn : "sensor.hall_lux" ∉ motion_sensors (entry_data (self hall))).
  { simpl. rewrite !not_elem_of_cons. split_and!; [done|done|apply not_elem_of_nil]. }
  split_and!; [done|done|].
  apply (@handle_motion_unknown_entity plain_host hall_data (hall_world "50" true)
           "sensor.hall_lux" (Some "50") hall Hr Hn).
Defined.

(** ** Disabling *)

Lemma other_area_addressed (call_area : option string) (m : Manager) :
  addressed call_area m → other_area call_area m = false.
Proof.
  unfold other_area. intros [-> | [-> | ->]]; [done|done|].
  destruct (String.eqb (_area m) ""); [done|]. by rewrite String.eqb_refl.
Qed.

Section Disable.
Context `{Host}.

(** X23.  In every reachable state, whatever the number of handles in
    [_restore_timers], a disable call that addresses the manager sets
    [_enabled] to [False], requests the cancellation of each of these tasks
    and leaves [_restore_timers] empty; and on every later schedule of the
    loop none of these tasks issues anything, so none of them turns a light
    off. *)
Theorem disable_cancels_pending_timers
    (d : ConfigEntryData) (call_area : option string) (s : Loop) :
  reachable d s →
  addressed call_area (self s) →
  _enabled (self (_handle_disable call_area s)) = false ∧
  _restore_timers (self (_handle_disable call_area s)) = ∅ ∧
  ∀ sensor_id tid, _restore_timers (self s) !! sensor_id = Some tid →
    (∃ t, timer_tasks (_handle_disable call_area s) !! tid = Some t ∧
          t_cancelled t = true) ∧
    ∀ evs, issued_by_timer tid (run evs (_handle_disable call_area s)).2 = [].
Proof.
  intros Hwf%reachable_timers_wf Hme%other_area_addressed.
  unfold _handle_disable. rewrite Hme. simpl. split_and!; [done|done|].
  intros sid tid Hl. destruct (Hwf sid tid Hl) as (t & Ht & _ & Hp).
  assert (Hin : tid ∈ (map_to_list (_restore_timers (self s))).*2).
  { apply list_elem_of_fmap. exists (sid, tid). split; [done|].
    by apply elem_of_map_to_list. }
  destruct (cancel_all_lookup (map_to_list (_restore_timers (self s))).*2 tid _ t Ht)
    as (t' & Ht' & _ & _ & _ & Hc).
  specialize (Hc Hin Hp). split; [by exists t'|].
  intros evs. apply silenced_run. exists t'. split; [done|by left].
Qed.

End Disable.

Lemma disable_cancels_pending_timers_witness :
  @reachable plain_host hall_data two_pending ∧
  addressed (Some "hall") (self two_pending) ∧
  size (_restore_timers (self two_pending)) = 2 ∧
  _enabled (self (_handle_disable (Some "hall") two_pending)) = false ∧
  _restore_timers (self (_handle_disable (Some "hall") two_pending)) = ∅.
Proof.
  assert (Hr : @reachable plain_host hall_data two_pending).
  { apply reachable_run. constructor. }
  assert (Ha : addressed (Some "hall") (self two_pending)).
  { right; right. reflexivity. }
  split_and!; [exact Hr|exact Ha|vm_compute; reflexivity| |];
    apply (@disable_cancels_pending_timers plain_host hall_data (Some "hall") two_pending Hr Ha).
Defined.

(** C7, the code at the failing input.  The hall sensor has armed twice, so
    the first timer task is pending without a handle.  A disable call then
    sets [_enabled] to [False] and empties [_restore_timers], but cancels only
    the second task: the first is still asleep and not cancelled, and when its
    sleep is over it turns every light off and fires the cancellation event,
    with the rule disabled. *)
Theorem disable_misses_orphaned_timer :
  _enabled (self (@run plain_host rearm_then_disable hall).1) = false ∧
  _restore_timers (self (@run plain_host rearm_then_disable hall).1) = ∅ ∧
  timer_tasks (@run plain_host rearm_then_disable hall).1 =
    [mk_task "binary_sensor.hall" 5 Sleeping false;
     mk_task "binary_sensor.hall" 5 Sleeping true] ∧
  issued_by_timer 0 (@run plain_host (rearm_then_disable ++ both_elapse) hall).2 =
    [Call "light" "turn_off" (EntityId "light.hall");
     Call "light" "turn_off" (EntityId "light.stairs");
     Fire "light_restoration_cancelled" (AreaData "hall")] ∧
  issued_by_timer 1 (@run plain_host (rearm_then_disable ++ both_elapse) hall).2 = [] ∧
  List.filter is_turn_off (issued (@run plain_host (rearm_then_disable ++ both_elapse) hall).2) =
    [Call "light" "turn_off" (EntityId "light.hall");
     Call "light" "turn_off" (EntityId "light.stairs")].
Proof. repeat split; vm_compute; reflexivity. Qed.

(** ** The delay timer *)

Lemma timer_finish_finished (tid : nat) (t : TimerTask) (s : Loop) :
  timer_tasks s !! tid = Some t → task_finished tid (timer_finish tid t s).
Proof.
  intros Ht. exists (set_phase Finished t). split; [|done]. simpl.
  apply list_lookup_insert_eq. by eapply lookup_lt_Some.
Qed.

Lemma resume_finished (w : World) (tid n : nat) (s : Loop) :
  task_finished tid s → resume_n w tid n s = (s, []).
Proof.
  intros (t & Ht & Hp). induction n as [|n IH]; simpl; [done|].
  unfold _handle_delay_timer at 1. by rewrite Ht, Hp, IH.
Qed.

Lemma resume_terminates (w : World) (tid n : nat) (s : Loop) (t : TimerTask) :
  timer_tasks s !! tid = Some t →
  resumptions_left s t ≤ n →
  task_finished tid (resume_n w tid n s).1.
Proof.
  revert s t. induction n as [|n IH]; intros s t Ht Hn.
  { exists t. split; [done|]. unfold resumptions_left in Hn.
    destruct (t_phase t); [lia|lia|done]. }
  assert (Hfin : task_finished tid (resume_n w tid n (timer_finish tid t s)).1).
  { rewrite resume_finished; by apply timer_finish_finished. }
  assert (Hloop : ∀ remaining, length remaining ≤ n →
    task_finished tid
      (resume_n w tid n (turn_off_loop tid t remaining s).1).1).
  { intros [|l rest] Hlen; simpl.
    - rewrite resume_finished; by apply timer_finish_finished.
    - eapply IH.
      + simpl. apply list_lookup_insert_eq. by eapply lookup_lt_Some.
      + unfold resumptions_left. simpl in *. lia. }
  simpl. unfold resumptions_left in Hn. unfold _handle_delay_timer at 1. rewrite Ht.
  destruct (t_phase t) as [|l rest|] eqn:Hp.
  - destruct (t_cancelled t).
    { by destruct (resume_n w tid n (timer_finish tid t s)). }
    destruct (negb _).
    + specialize (Hloop (lights (entry_data (self s))) ltac:(lia)).
      destruct (turn_off_loop _ _ _ _) as [s1 es1]. simpl in Hloop.
      by destruct (resume_n w tid n s1).
    + by destruct (resume_n w tid n (timer_finish tid t s)).
  - destruct (t_cancelled t).
    { by destruct (resume_n w tid n (timer_finish tid t s)). }
    destruct (call_ok _ _ _ _).
    + specialize (Hloop rest ltac:(lia)).
      destruct (turn_off_loop _ _ _ _) as [s1 es1]. simpl in Hloop.
      by destruct (resume_n w tid n s1).
    + by destruct (resume_n w tid n (timer_finish tid t s)).
  - rewrite resume_finished; [|by exists t]. by exists t.
Qed.

(** From the lights still to do to the end, when every call returns. *)
Lemma turn_off_loop_run (w : World) (tid : nat) (remaining : list string) :
  ∀ (n : nat) (s : Loop) (t : TimerTask),
  timer_tasks s !! tid = Some t →
  t_cancelled t = false →
  (∀ x, x ∈ remaining → call_ok w "light" "turn_off" (EntityId x) = true) →
  length remaining ≤ n →
  ((turn_off_loop tid t remaining s).2 ++
     (resume_n w tid n (turn_off_loop tid t remaining s).1).2 =
   turn_off_all remaining (_area (self s))) ∧
  _restore_timers (self (resume_n w tid n (turn_off_loop tid t remaining s).1).1) =
    delete (t_sensor t) (_restore_timers (self s)).
Proof.
  induction remaining as [|l rest IH]; intros n s t Ht Hc Hok Hn.
  - simpl. rewrite resume_finished by by apply timer_finish_finished. done.
  - destruct n as [|n]; [simpl in Hn; lia|].
    cbn [turn_off_loop fst snd resume_n].
    set (t1 := set_phase (TurningOff l rest) t).
    set (s1 := set_timer_tasks (<[tid:=t1]> (timer_tasks s)) s).
    assert (Ht1 : timer_tasks s1 !! tid = Some t1).
    { simpl. apply list_lookup_insert_eq. by eapply lookup_lt_Some. }
    unfold _handle_delay_timer at 1 2. rewrite Ht1. cbn [t1 set_phase t_phase t_cancelled].
    rewrite Hc, (Hok l) by left.
    destruct (IH n s1 t1 Ht1 Hc) as [Hes Hrt].
    { intros x Hx. apply Hok. by right. }
    { simpl in Hn. lia. }
    destruct (turn_off_loop tid t1 rest s1) as [s2 es2]. simpl in Hes, Hrt.
    destruct (resume_n w tid n s2) as [s3 es3]. simpl in *.
    split; [|done]. unfold turn_off_all in *. simpl. f_equal. exact Hes.
Qed.

Lemma any_active_spec (ma : gmap string bool) :
  any_active ma = true ↔ ∃ sensor_id, ma !! sensor_id = Some true.
Proof.
  unfold any_active. rewrite existsb_exists. split.
  - intros (b & Hin & Hb). unfold id in Hb. subst b.
    apply list_elem_of_In, list_elem_of_fmap in Hin as ([k v] & -> & Hin).
    exists k. by apply elem_of_map_to_list in Hin.
  - intros (k & Hk). exists true. split; [|done].
    apply list_elem_of_In, list_elem_of_fmap. exists (k, true).
    split; [done|]. by apply elem_of_map_to_list.
Qed.

(** C4.  A pending timer task, resumed.
    - When its sleep is over and it has not been cancelled: if some tracked
      sensor is active it issues nothing; if every call returns, its run
      issues the turn-off call of every configured light, in order, and then
      the restoration-cancelled event, exactly when no tracked sensor is
      active at that moment, and nothing otherwise.
    - When it has been cancelled it issues nothing.
    - It always comes to its end, and the resumption that ends it, on every
      path (no sensor quiet, all calls done, a call failed, cancelled asleep or
      in flight), pops its sensor's entry of [_restore_timers]. *)
Theorem delay_timer_spec (w : World) (tid : nat) (s : Loop) (t : TimerTask) :
  timer_tasks s !! tid = Some t →
  t_phase t ≠ Finished →
  (any_active (_motion_active (self s)) = true ↔
     ∃ sensor_id, _motion_active (self s) !! sensor_id = Some true) ∧
  (t_phase t = Sleeping → t_cancelled t = false →
     (any_active (_motion_active (self s)) = true →
        _handle_delay_timer w tid s = (timer_finish tid t s, [])) ∧
     ((∀ light_id, light_id ∈ lights (entry_data (self s)) →
          call_ok w "light" "turn_off" (EntityId light_id) = true) →
        (resume_n w tid (S (length (lights (entry_data (self s))))) s).2 =
          (if any_active (_motion_active (self s)) then []
           else turn_off_all (lights (entry_data (self s))) (_area (self s))) ∧
        ((resume_n w tid (S (length (lights (entry_data (self s))))) s).2 =
           turn_off_all (lights (entry_data (self s))) (_area (self s)) ↔
         any_active (_motion_active (self s)) = false))) ∧
  (t_cancelled t = true → _handle_delay_timer w tid s = (timer_finish tid t s, [])) ∧
  (∀ n, resumptions_left s t ≤ n → task_finished tid (resume_n w tid n s).1) ∧
  (task_finished tid (_handle_delay_timer w tid s).1 →
     _restore_timers (self (_handle_delay_timer w tid s).1) =
       delete (t_sensor t) (_restore_timers (self s))).
Proof.
  intros Ht Hnf. split_and!.
  - apply any_active_spec.
  - intros Hp Hc.
    assert (Hrun : (∀ light_id, light_id ∈ lights (entry_data (self s)) →
          call_ok w "light" "turn_off" (EntityId light_id) = true) →
        (resume_n w tid (S (length (lights (entry_data (self s))))) s).2 =
          (if any_active (_motion_active (self s)) then []
           else turn_off_all (lights (entry_data (self s))) (_area (self s)))).
    { intros Hok. cbn [resume_n]. unfold _handle_delay_timer at 1.
      rewrite Ht, Hp, Hc. destruct (any_active _); simpl.
      - rewrite resume_finished by by apply timer_finish_finished. done.
      - destruct (turn_off_loop_run w tid (lights (entry_data (self s)))
                    (length (lights (entry_data (self s)))) s t Ht Hc Hok) as [Hes _]; [done|].
        destruct (turn_off_loop _ _ _ _) as [s1 es1]. simpl in Hes.
        by destruct (resume_n w tid _ s1). }
    split.
    + intros Hany. unfold _handle_delay_timer. by rewrite Ht, Hp, Hc, Hany.
    + intros Hok. split; [by apply Hrun|]. rewrite (Hrun Hok).
      destruct (any_active _); [|done]. split; [|done].
      unfold turn_off_all. intros Hnil. symmetry in Hnil. by apply app_nil in Hnil as [_ ?].
  - intros Hc. unfold _handle_delay_timer. rewrite Ht, Hc.
    by destruct (t_phase t).
  - intros n Hn. by eapply resume_terminates.
  - destruct (delay_timer_cases w tid s) as [->|(t' & Ht' & _ & [->|(_ & l & rest & ->)])].
    + intros (t' & Ht' & Hp'). simpl in Ht'. congruence.
    + intros _. simpl. congruence.
    + intros (t'' & Ht'' & Hp''). simpl in Ht''.
      rewrite list_lookup_insert_eq in Ht'' by by eapply lookup_lt_Some.
      by simplify_eq.
Qed.

Lemma delay_timer_spec_witness :
  timer_tasks one_pending !! 0 = Some (mk_task "binary_sensor.hall" 5 Sleeping false) ∧
  (resume_n (hall_world "5" true) 0 3 one_pending).2 =
    [Call "light" "turn_off" (EntityId "light.hall");
     Call "light" "turn_off" (EntityId "light.stairs");
     Fire "light_restoration_cancelled" (AreaData "hall")] ∧
  _restore_timers (self one_pending) !! "binary_sensor.hall" = Some 0 ∧
  task_finished 0 (resume_n (hall_world "5" true) 0 3 one_pending).1.
Proof.
  assert (Ht : timer_tasks one_pending !! 0 =
                 Some (mk_task "binary_sensor.hall" 5 Sleeping false)) by reflexivity.
  destruct (delay_timer_spec (hall_world "5" true) 0 one_pending _ Ht)
    as (_ & Helapse & _ & Hend & _); [done|].
  destruct (Helapse eq_refl eq_refl) as [_ Hrun].
  destruct Hrun as [Hes _]; [done|].
  split_and!; [exact Ht|exact Hes|reflexivity|].
  apply (Hend 3). vm_compute. lia.
Defined.

(** ** Arming twice *)

(** C2, the code at the failing input.  After two reports other than [on]
    from the same sensor, the first timer task is still asleep and not
    cancelled while the only handle kept is the second's; when both sleeps
    are over, every light is turned off twice and the cancellation event is
    fired twice. *)
Theorem rearm_leaves_first_timer_running :
  timer_tasks (@run plain_host rearm_events hall).1 =
    [mk_task "binary_sensor.hall" 5 Sleeping false;
     mk_task "binary_sensor.hall" 5 Sleeping false] ∧
  _restore_timers (self (@run plain_host rearm_events hall).1) !! "binary_sensor.hall" = Some 1 ∧
  List.filter is_turn_off (issued (@run plain_host (rearm_events ++ both_elapse) hall).2) =
    [Call "light" "turn_off" (EntityId "light.hall");
     Call "light" "turn_off" (EntityId "light.stairs");
     Call "light" "turn_off" (EntityId "light.hall");
     Call "light" "turn_off" (EntityId "light.stairs")] ∧
  List.filter (is_fire EVENT_RESTORATION_CANCELLED)
              (issued (@run plain_host (rearm_events ++ both_elapse) hall).2) =
    [Fire "light_restoration_cancelled" (AreaData "hall");
     Fire "light_restoration_cancelled" (AreaData "hall")].
Proof. repeat split; vm_compute; reflexivity. Qed.

(** * Further properties of the code *)

(** ** The order on times of day *)

Lemma time_le_trans (a b c : time) :
  time_le a b = true → time_le b c = true → time_le a c = true.
Proof.
  unfold time_le, time_cmp.
  destruct (Nat.compare_spec (hour a) (hour b)); [| |done];
  destruct (Nat.compare_spec (hour b) (hour c)); try done;
  destruct (Nat.compare_spec (hour a) (hour c)); try done; try lia;
  destruct (Nat.compare_spec (minute a) (minute b)); try done;
  destruct (Nat.compare_spec (minute b) (minute c)); try done;
  destruct (Nat.compare_spec (minute a) (minute c)); try done; try lia;
  destruct (Nat.compare_spec (second a) (second b)); try done;
  destruct (Nat.compare_spec (second b) (second c)); try done;
  destruct (Nat.compare_spec (second a) (second c)); try done; try lia;
  destruct (Nat.compare_spec (microsecond a) (microsecond b)); try done;
  destruct (Nat.compare_spec (microsecond b) (microsecond c)); try done;
  destruct (Nat.compare_spec (microsecond a) (microsecond c)); try done; lia.
Qed.

Section SlotLists.
Context `{Host}.

(** The loop over a concatenation: the second list is reached only when the
    first returns [False]. *)
Lemma time_slot_loop_app (t : time) (L L' : list time_slot) :
  time_slot_loop t (L ++ L') =
    match time_slot_loop t L with
    | Return false => time_slot_loop t L'
    | r => r
    end.
Proof.
  induction L as [|slot L IH]; simpl; [done|].
  destruct (parse_time (start_time slot)); [|done].
  destruct (time_le _ t); [|done].
  destruct (parse_time (end_time slot)); [|done].
  by destruct (time_le t _).
Qed.

Lemma time_slot_loop_filter_false (t : time) (P : time_slot → Prop)
    `{∀ x, Decision (P x)} (L : list time_slot) :
  time_slot_loop t L = Return false → time_slot_loop t (filter P L) = Return false.
Proof.
  induction L as [|slot L IH]; [done|]. intros Hloop.
  assert (Hrest : time_slot_loop t L = Return false).
  { simpl in Hloop. destruct (parse_time (start_time slot)); [|done].
    destruct (time_le _ t); [|done].
    destruct (parse_time (end_time slot)); [|done].
    by destruct (time_le t _). }
  destruct (decide (P slot)).
  - rewrite filter_cons_True by done. simpl in *.
    destruct (parse_time (start_time slot)); [|done].
    destruct (time_le _ t); [|by apply IH].
    destruct (parse_time (end_time slot)); [|done].
    destruct (time_le t _); [done|by apply IH].
  - rewrite filter_cons_False by done. by apply IH.
Qed.

Lemma slot_inverted_never_contains (t : time) (slot : time_slot) :
  slot_inverted slot → ¬ slot_contains t slot.
Proof.
  intros (s & e & Hs & He & Hle) (s' & e' & Hs' & He' & H1 & H2).
  rewrite Hs in Hs'. rewrite He in He'. injection Hs' as <-. injection He' as <-.
  by rewrite (time_le_trans s t e) in Hle.
Qed.

(** X1.  A list of windows that all run over midnight (each end before its
    start) never opens: at every time of day the check returns [False]. *)
Theorem inverted_slots_never_match (d : ConfigEntryData) (w : World) :
  Forall slot_inverted (get_time_slots d) →
  _is_in_active_time_slot w d = Return false.
Proof.
  intros Hinv.
  assert (Hwf : Forall slot_well_formed (get_time_slots d)).
  { eapply Forall_impl; [exact Hinv|]. intros slot (s & e & Hs & He & _).
    split; by eexists. }
  unfold _is_in_active_time_slot.
  destruct (time_slot_loop_well_formed (now w) _ Hwf) as [[_ (slot & Hin & Hc)]|[Hf _]];
    [|done].
  rewrite Forall_forall in Hinv.
  by destruct (slot_inverted_never_contains (now w) slot (Hinv slot Hin)).
Qed.

(** X2.  After [_handle_add_time_slot] has stored a slot whose start is not a
    time of day, the check still returns [True] where it did, but where it
    returned [False] it now raises; an enabled manager's [_restore_lights]
    then ends in [TypeError] without issuing anything. *)
Theorem malformed_slot_breaks_check (w : World) (start end_ : string) (m : Manager) :
  parse_time start = None →
  _is_in_active_time_slot w (entry_data (_handle_add_time_slot start end_ m).1) =
    match _is_in_active_time_slot w (entry_data m) with
    | Return false => Raise TypeError
    | r => r
    end ∧
  (_enabled m = true →
   _is_in_active_time_slot w (entry_data m) = Return false →
   _restore_lights w (_handle_add_time_slot start end_ m).1 = ([], Raise TypeError)).
Proof.
  intros Hbad.
  assert (Hcheck :
    _is_in_active_time_slot w (entry_data (_handle_add_time_slot start end_ m).1) =
    match _is_in_active_time_slot w (entry_data m) with
    | Return false => Raise TypeError
    | r => r
    end).
  { unfold _is_in_active_time_slot, _handle_add_time_slot. simpl.
    unfold get_time_slots at 1. simpl. rewrite time_slot_loop_app. simpl.
    by rewrite Hbad. }
  split; [exact Hcheck|]. intros Hen Hf.
  unfold _restore_lights. simpl. rewrite Hen. simpl.
  unfold _handle_add_time_slot in Hcheck. simpl in Hcheck.
  rewrite Hcheck, Hf. done.
Qed.

(** X3.  When the check returns (does not raise), storing a slot that contains
    the current time makes it return [True]. *)
Theorem added_slot_opens_window (w : World) (start end_ : string) (m : Manager) (b : bool) :
  _is_in_active_time_slot w (entry_data m) = Return b →
  slot_contains (now w) (mk_slot start end_) →
  _is_in_active_time_slot w (entry_data (_handle_add_time_slot start end_ m).1) = Return true.
Proof.
  intros Hb (s & e & Hs & He & H1 & H2).
  unfold _is_in_active_time_slot, _handle_add_time_slot in *. simpl in *.
  unfold get_time_slots at 1. simpl. rewrite time_slot_loop_app, Hb. simpl.
  rewrite Hs, He, H1, H2. by destruct b.
Qed.

(** X4.  Removing a slot never opens the window: where the check returned
    [False] it still returns [False] after [_handle_remove_time_slot]. *)
Theorem remove_keeps_window_closed (w : World) (start end_ : string) (m : Manager) :
  _is_in_active_time_slot w (entry_data m) = Return false →
  _is_in_active_time_slot w (entry_data (_handle_remove_time_slot start end_ m).1) =
    Return false.
Proof.
  intros Hf. unfold _is_in_active_time_slot, _handle_remove_time_slot in *. simpl.
  unfold get_time_slots at 1. simpl. by apply time_slot_loop_filter_false.
Qed.

End SlotLists.

Lemma inverted_slots_never_match_witness :
  Forall (@slot_inverted plain_host) (get_time_slots night_data) ∧
  @_is_in_active_time_slot plain_host night_world night_data = Return false.
Proof.
  assert (Hinv : Forall (@slot_inverted plain_host) (get_time_slots night_data)).
  { repeat constructor. by exists (mk_time 22 0 0 0), (mk_time 6 0 0 0). }
  split; [exact Hinv|].
  exact (@inverted_slots_never_match plain_host night_data night_world Hinv).
Defined.

Lemma malformed_slot_breaks_check_witness :
  @parse_time plain_host "bogus" = None ∧
  @_is_in_active_time_slot plain_host night_world
    (entry_data (_handle_add_time_slot "bogus" "23:59:00" (self hall)).1) = Raise TypeError.
Proof.
  assert (Hbad : @parse_time plain_host "bogus" = None) by reflexivity.
  split; [exact Hbad|].
  exact (proj1 (@malformed_slot_breaks_check plain_host night_world
                  "bogus" "23:59:00" (self hall) Hbad)).
Defined.

Lemma added_slot_opens_window_witness :
  @_is_in_active_time_slot plain_host night_world (entry_data (self hall)) = Return false ∧
  @slot_contains plain_host (now night_world) (mk_slot "23:00:00" "23:59:00") ∧
  @_is_in_active_time_slot plain_host night_world
    (entry_data (_handle_add_time_slot "23:00:00" "23:59:00" (self hall)).1) = Return true.
Proof.
  assert (Hb : @_is_in_active_time_slot plain_host night_world (entry_data (self hall)) =
               Return false) by reflexivity.
  assert (Hc : @slot_contains plain_host (now night_world) (mk_slot "23:00:00" "23:59:00")).
  { by exists (mk_time 23 0 0 0), (mk_time 23 59 0 0). }
  split_and!; [exact Hb|exact Hc|].
  exact (@added_slot_opens_window plain_host night_world
           "23:00:00" "23:59:00" (self hall) false Hb Hc).
Defined.

Lemma remove_keeps_window_closed_witness :
  @_is_in_active_time_slot plain_host night_world (entry_data (self hall)) = Return false ∧
  @_is_in_active_time_slot plain_host night_world
    (entry_data (_handle_remove_time_slot "08:00:00" "22:00:00" (self hall)).1) = Return false.
Proof.
  assert (Hb : @_is_in_active_time_slot plain_host night_world (entry_data (self hall)) =
               Return false) by reflexivity.
  split; [exact Hb|].
  exact (@remove_keeps_window_closed plain_host night_world
           "08:00:00" "22:00:00" (self hall) Hb).
Defined.

(** ** More on the illuminance gate *)

Lemma float_gt_antitone (v : pyfloat) (th th' : Q) :
  (th <= th')%Q → float_gt v th' = true → float_gt v th = true.
Proof.
  intros Hle. destruct v as [q| | |]; try done.
  rewrite !float_gt_finite. intros Hlt. by eapply Qle_lt_trans.
Qed.

Section IlluminanceMore.
Context `{Host}.

Lemma check_illuminance_loop (w : World) (d : ConfigEntryData) :
  _check_illuminance w d =
    illuminance_loop w (threshold_of d) (default [] (illuminance_sensors d)).
Proof.
  unfold _check_illuminance, threshold_of. by destruct (illuminance_sensors d) as [[|]|].
Qed.

(** X5.  The gate depends on which sensors are configured, not on their order
    or repetition: two sensor lists with the same members give the same
    result. *)
Theorem check_illuminance_same_members
    (w : World) (d : ConfigEntryData) (sensors sensors' : list string) :
  (∀ sensor_id, sensor_id ∈ sensors ↔ sensor_id ∈ sensors') →
  _check_illuminance w (with_illuminance (Some sensors) (illuminance_threshold d) d) =
  _check_illuminance w (with_illuminance (Some sensors') (illuminance_threshold d) d).
Proof.
  intros Hsame. rewrite !check_illuminance_loop. unfold threshold_of. simpl.
  set (th := default DEFAULT_ILLUMINANCE_THRESHOLD (illuminance_threshold d)).
  destruct (illuminance_loop w th sensors) eqn:H1;
    destruct (illuminance_loop w th sensors') eqn:H2; try done.
  - apply illuminance_loop_false in H2 as (x & Hin & Hx).
    assert (illuminance_loop w th sensors = false); [|congruence].
    apply illuminance_loop_false. exists x. split; [by apply Hsame|done].
  - apply illuminance_loop_false in H1 as (x & Hin & Hx).
    assert (illuminance_loop w th sensors' = false); [|congruence].
    apply illuminance_loop_false. exists x. split; [by apply Hsame|done].
Qed.

(** X6.  Raising the threshold never closes the gate: if the check passes
    with a threshold it passes with every larger one, for the same sensors
    and readings. *)
Theorem check_illuminance_monotone
    (w : World) (d : ConfigEntryData) (threshold threshold' : Q) :
  (threshold <= threshold')%Q →
  _check_illuminance w (with_illuminance (illuminance_sensors d) (Some threshold) d) = true →
  _check_illuminance w (with_illuminance (illuminance_sensors d) (Some threshold') d) = true.
Proof.
  intros Hle. rewrite !check_illuminance_loop. unfold threshold_of. simpl.
  intros Hpass. apply not_false_iff_true. intros Hblock.
  apply illuminance_loop_false in Hblock as (x & Hin & state & v & Hst & Hfl & Hgt).
  assert (illuminance_loop w threshold (default [] (illuminance_sensors d)) = false);
    [|congruence].
  apply illuminance_loop_false. exists x. split; [done|].
  exists state, v. split_and!; [done|done|]. by eapply float_gt_antitone.
Qed.

End IlluminanceMore.

Lemma check_illuminance_same_members_witness :
  (∀ sensor_id : string,
     sensor_id ∈ ["sensor.a"; "sensor.hall_lux"] ↔
     sensor_id ∈ ["sensor.hall_lux"; "sensor.a"; "sensor.hall_lux"]) ∧
  @_check_illuminance plain_host (hall_world "50" true)
    (with_illuminance (Some ["sensor.a"; "sensor.hall_lux"]) (Some (10 # 1)) hall_data) =
  @_check_illuminance plain_host (hall_world "50" true)
    (with_illuminance (Some ["sensor.hall_lux"; "sensor.a"; "sensor.hall_lux"])
                      (Some (10 # 1)) hall_data).
Proof.
  assert (Hsame : ∀ sensor_id : string,
     sensor_id ∈ ["sensor.a"; "sensor.hall_lux"] ↔
     sensor_id ∈ ["sensor.hall_lux"; "sensor.a"; "sensor.hall_lux"]).
  { intros x. rewrite !elem_of_cons. intuition. }
  split; [exact Hsame|].
  exact (@check_illuminance_same_members plain_host (hall_world "50" true) hall_data
           _ _ Hsame).
Defined.

Lemma check_illuminance_monotone_witness :
  (60 # 1 <= 100 # 1)%Q ∧
  @_check_illuminance plain_host (hall_world "50" true)
    (with_illuminance (illuminance_sensors hall_data) (Some (60 # 1)) hall_data) = true ∧
  @_check_illuminance plain_host (hall_world "50" true)
    (with_illuminance (illuminance_sensors hall_data) (Some (100 # 1)) hall_data) = true.
Proof.
  assert (Hle : (60 # 1 <= 100 # 1)%Q) by (by vm_compute).
  assert (Hp : @_check_illuminance plain_host (hall_world "50" true)
    (with_illuminance (illuminance_sensors hall_data) (Some (60 # 1)) hall_data) = true)
    by reflexivity.
  split_and!; [exact Hle|exact Hp|].
  exact (@check_illuminance_monotone plain_host (hall_world "50" true) hall_data
           (60 # 1) (100 # 1) Hle Hp).
Defined.

(** ** Time slots: adding and removing compose *)

(** X7.  Adding a slot and then removing the same pair leaves the stored
    slots that differ from the pair, in order: the list is back to what it
    was exactly when the pair was not stored before, and a copy stored
    before goes too.  Both events are fired. *)
Theorem add_then_remove_time_slot (start end_ : string) (m : Manager) :
  get_time_slots
    (entry_data (_handle_remove_time_slot start end_
                   (_handle_add_time_slot start end_ m).1).1) =
    filter (λ slot, slot ≠ mk_slot start end_) (get_time_slots (entry_data m)) ∧
  (get_time_slots
     (entry_data (_handle_remove_time_slot start end_
                    (_handle_add_time_slot start end_ m).1).1) =
     get_time_slots (entry_data m) ↔
   mk_slot start end_ ∉ get_time_slots (entry_data m)) ∧
  (_handle_add_time_slot start end_ m).2 ++
    (_handle_remove_time_slot start end_ (_handle_add_time_slot start end_ m).1).2 =
    [Fire EVENT_TIME_SLOT_ADDED (SlotData (_area m) (mk_slot start end_));
     Fire EVENT_TIME_SLOT_REMOVED (SlotData (_area m) (mk_slot start end_))].
Proof.
  assert (Heq : get_time_slots
    (entry_data (_handle_remove_time_slot start end_
                   (_handle_add_time_slot start end_ m).1).1) =
    filter (λ slot, slot ≠ mk_slot start end_) (get_time_slots (entry_data m))).
  { unfold _handle_remove_time_slot, _handle_add_time_slot. simpl.
    unfold get_time_slots at 1 2. simpl.
    rewrite filter_app, filter_cons_False, filter_nil, app_nil_r; [done|].
    by intros Hne. }
  split_and!; [exact Heq| |done].
  rewrite Heq. split.
  - intros Hsame Hin.
    assert (Hin' : mk_slot start end_ ∈
      filter (λ slot, slot ≠ mk_slot start end_) (get_time_slots (entry_data m))).
    { by rewrite Hsame. }
    by apply list_elem_of_filter in Hin' as [Hne _].
  - apply filter_ne_absent.
Qed.

(** ** Enable and disable: the area filter *)

(** X8.  An enable or disable call that names another, non-empty area is
    ignored: the manager, its timers and the loop's tasks are as before. *)
Theorem other_area_call_ignored (a : string) (s : Loop) :
  a ≠ "" →
  a ≠ _area (self s) →
  _handle_disable (Some a) s = s ∧
  _handle_enable (Some a) (self s) = self s.
Proof.
  intros Hne Hother. unfold _handle_disable, _handle_enable, other_area.
  apply String.eqb_neq in Hne, Hother. by rewrite Hne, Hother.
Qed.

Lemma other_area_call_ignored_witness :
  "kitchen" ≠ "" ∧ "kitchen" ≠ _area (self two_pending) ∧
  _handle_disable (Some "kitchen") two_pending = two_pending.
Proof.
  assert (H1 : "kitchen" ≠ "") by done.
  assert (H2 : "kitchen" ≠ _area (self two_pending)) by done.
  split_and!; [exact H1|exact H2|].
  exact (proj1 (other_area_call_ignored "kitchen" two_pending H1 H2)).
Defined.

(** ** The periodic scan *)

Section Scan.
Context `{Host}.

(** X9.  [_handle_interval_scan] issues something only when the manager is
    enabled, the two gates pass and some tracked sensor is active; then it
    does exactly what [_restore_lights] does.  A disabled manager returns
    before the time-slot check, so a stored slot that is no time of day
    cannot make it raise. *)
Theorem interval_scan_spec (w : World) (m : Manager) :
  ((_handle_interval_scan w m).1 ≠ [] →
     restore_guards w m ∧ ∃ sensor_id, _motion_active m !! sensor_id = Some true) ∧
  (restore_guards w m →
   (∃ sensor_id, _motion_active m !! sensor_id = Some true) →
   _handle_interval_scan w m = _restore_lights w m) ∧
  (_enabled m = true →
   (¬ ∃ sensor_id, _motion_active m !! sensor_id = Some true) →
   (_handle_interval_scan w m).1 = []) ∧
  (_enabled m = false → _handle_interval_scan w m = ([], Return ())).
Proof.
  unfold _handle_interval_scan, restore_guards.
  rewrite <- (any_active_spec (_motion_active m)).
  destruct (_enabled m) eqn:Hen; simpl.
  2: { split_and!; [done|by intros [? _]|done|done]. }
  destruct (_is_in_active_time_slot w (entry_data m)) as [[|]|e] eqn:Hslot; simpl.
  - destruct (_check_illuminance w (entry_data m)) eqn:Hlux; simpl.
    + destruct (any_active (_motion_active m)) eqn:Hany; simpl.
      * split_and!; try done.
        intros _ _. by destruct (_restore_lights w m) as [es r].
      * split_and!; [done|by intros _ ?|done|done].
    + split_and!; [done|by intros (_ & _ & ?)|done|done].
  - split_and!; [done|by intros (_ & ? & _)|done|done].
  - split_and!; [done|by intros (_ & ? & _)|done|done].
Qed.

End Scan.

(** ** The motion listener, continued *)

(** X10.  For a tracked sensor, a state-changed event with a new state always
    returns and records whether the state is [on] under that sensor, leaving
    the other sensors' entries, the entry data, the area and the enabled flag
    alone; while the manager is disabled that is all it does: no handle is
    stored or removed and no task is created or cancelled. *)
Theorem handle_motion_records_activity (entity_id state : string) (s : Loop) :
  is_Some (_motion_active (self s) !! entity_id) →
  ∃ s', handle_motion entity_id (Some state) s = Return s' ∧
    _motion_active (self s') =
      <[entity_id := String.eqb state STATE_ON]> (_motion_active (self s)) ∧
    entry_data (self s') = entry_data (self s) ∧
    _area (self s') = _area (self s) ∧
    _enabled (self s') = _enabled (self s) ∧
    (_enabled (self s) = false →
       _restore_timers (self s') = _restore_timers (self s) ∧
       timer_tasks s' = timer_tasks s ∧
       restore_tasks s' = restore_tasks s).
Proof.
  intros [b Hb].
  destruct (handle_motion_returns entity_id (Some state) s) as [s' Hs'].
  exists s'. split; [done|].
  unfold handle_motion in Hs'. rewrite Hb in Hs'.
  pose proof Hs' as Hcases. apply motion_change_cases in Hcases as [Hself _].
  rewrite Hself. simpl. split_and!; try done.
  intros Hoff. unfold _handle_motion_change in Hs'. simpl in Hs'.
  rewrite Hoff in Hs'. simpl in Hs'. by injection Hs' as <-.
Qed.

Lemma handle_motion_records_activity_witness :
  is_Some (_motion_active (self hall) !! "binary_sensor.stairs") ∧
  ∃ s', handle_motion "binary_sensor.stairs" (Some "on") hall = Return s' ∧
        _motion_active (self s') !! "binary_sensor.stairs" = Some true.
Proof.
  assert (Hk : is_Some (_motion_active (self hall) !! "binary_sensor.stairs")).
  { by exists false. }
  split; [exact Hk|].
  destruct (handle_motion_records_activity "binary_sensor.stairs" "on" hall Hk)
    as (s' & Hs' & Hma & _).
  exists s'. split; [exact Hs'|]. rewrite Hma. apply lookup_insert_eq.
Defined.

Section MotionOn.
Context `{Host}.

(** X11.  In every reachable state of an enabled manager, a tracked sensor
    reporting [on] removes that sensor's handle, keeps the other handles,
    creates one restore task, and silences the timer task the handle named:
    on every later schedule that task issues nothing. *)
Theorem motion_on_cancels_pending_timer
    (d : ConfigEntryData) (entity_id : string) (s : Loop) :
  reachable d s →
  _enabled (self s) = true →
  entity_id ∈ motion_sensors d →
  ∃ s', handle_motion entity_id (Some STATE_ON) s = Return s' ∧
    _restore_timers (self s') = delete entity_id (_restore_timers (self s)) ∧
    restore_tasks s' = S (restore_tasks s) ∧
    ∀ tid, _restore_timers (self s) !! entity_id = Some tid →
      ∀ evs, issued_by_timer tid (run evs s').2 = [].
Proof.
  intros Hr Hen Hin.
  pose proof (reachable_timers_wf d s Hr) as Hwf.
  apply reachable_tracks_sensors in Hr as [_ Hma].
  apply Hma in Hin as [b Hb].
  unfold handle_motion. rewrite Hb. unfold _handle_motion_change. simpl.
  rewrite Hen, lookup_insert_eq. simpl.
  destruct (_restore_timers (self s) !! entity_id) as [timer|] eqn:Hrt; simpl.
  - eexists. split; [done|]. simpl. split_and!; [done|done|].
    intros tid [= <-] evs. apply silenced_run.
    destruct (Hwf entity_id timer Hrt) as (t & Ht & _ & Hp).
    destruct (cancel_lookup timer timer _ t Ht) as (t' & Ht' & _ & _ & _ & Hc).
    exists t'. split; [done|]. left. by apply Hc.
  - eexists. split; [done|]. simpl. split_and!; [by rewrite delete_id|done|done].
Qed.

End MotionOn.

Lemma motion_on_cancels_pending_timer_witness :
  @reachable plain_host hall_data one_pending ∧
  _enabled (self one_pending) = true ∧
  "binary_sensor.hall" ∈ motion_sensors hall_data ∧
  _restore_timers (self one_pending) !! "binary_sensor.hall" = Some 0 ∧
  ∃ s', handle_motion "binary_sensor.hall" (Some "on") one_pending = Return s' ∧
        _restore_timers (self s') !! "binary_sensor.hall" = None.
Proof.
  assert (Hr : @reachable plain_host hall_data one_pending).
  { apply reachable_run. constructor. }
  assert (Hen : _enabled (self one_pending) = true) by reflexivity.
  assert (Hin : "binary_sensor.hall" ∈ motion_sensors hall_data) by (simpl; left).
  split_and!; [exact Hr|exact Hen|exact Hin|reflexivity|].
  destruct (@motion_on_cancels_pending_timer plain_host hall_data
              "binary_sensor.hall" one_pending Hr Hen Hin) as (s' & Hs' & Hrt & _).
  exists s'. split; [exact Hs'|]. rewrite Hrt. apply lookup_delete_eq.
Defined.

(** ** What each event can issue *)

Lemma delay_timer_effects (w : World) (tid : nat) (s : Loop) (e : effect) :
  e ∈ (_handle_delay_timer w tid s).2 →
  (∃ light_id, e = Call "light" "turn_off" (EntityId light_id)) ∨
  e = Fire EVENT_RESTORATION_CANCELLED (AreaData (_area (self s))).
Proof.
  assert (Hloop : ∀ t remaining, e ∈ (turn_off_loop tid t remaining s).2 →
    (∃ light_id, e = Call "light" "turn_off" (EntityId light_id)) ∨
    e = Fire EVENT_RESTORATION_CANCELLED (AreaData (_area (self s)))).
  { intros t [|l rest]; simpl; intros ->%list_elem_of_singleton; [by right|].
    left. by exists l. }
  unfold _handle_delay_timer.
  destruct (timer_tasks s !! tid) as [t|]; [|by intros ?%elem_of_nil].
  destruct (t_phase t) as [|l rest|]; [| |by intros ?%elem_of_nil];
    (destruct (t_cancelled t); [by intros ?%elem_of_nil|]).
  - destruct (negb _); [apply Hloop|by intros ?%elem_of_nil].
  - destruct (call_ok _ _ _ _); [apply Hloop|by intros ?%elem_of_nil].
Qed.

Section Sources.
Context `{Host}.

Lemma restore_lights_effects (w : World) (m : Manager) (e : effect) :
  e ∈ (_restore_lights w m).1 → e = restore_call m ∨ e = restoration_triggered m.
Proof.
  unfold _restore_lights, restore_call, restoration_triggered.
  destruct (_enabled m); simpl; [|by intros ?%elem_of_nil].
  destruct (_is_in_active_time_slot w (entry_data m)) as [[|]|]; simpl;
    [|by intros ?%elem_of_nil|by intros ?%elem_of_nil].
  destruct (_check_illuminance w (entry_data m)); simpl; [|by intros ?%elem_of_nil].
  unfold async_call. destruct (call_ok _ _ _ _); simpl.
  - rewrite !elem_of_cons. intros [->|[->|?%elem_of_nil]]; [by left|by right|done].
  - intros ->%list_elem_of_singleton. by left.
Qed.

Lemma interval_scan_effects (w : World) (m : Manager) (e : effect) :
  e ∈ (_handle_interval_scan w m).1 → e = restore_call m ∨ e = restoration_triggered m.
Proof.
  unfold _handle_interval_scan.
  destruct (_enabled m); simpl; [|by intros ?%elem_of_nil].
  destruct (_is_in_active_time_slot w (entry_data m)) as [[|]|]; simpl;
    [|by intros ?%elem_of_nil|by intros ?%elem_of_nil].
  destruct (_check_illuminance w (entry_data m) && any_active (_motion_active m)); simpl;
    [|by intros ?%elem_of_nil].
  pose proof (restore_lights_effects w m e) as Hr.
  by destruct (_restore_lights w m) as [es r].
Qed.

(** X12.  What the loop issues while it runs one event depends on the kind
    of event: only the resumption of a timer task turns a light off or fires
    the cancellation event; only the periodic scan and a restore task call
    the restore service or fire the triggered event; the two time-slot
    services fire their own event; a state-changed event, enable and disable
    issue nothing themselves. *)
Theorem step_issues_by_event_kind (w : World) (ev : loop_event) (s : Loop) (e : effect) :
  e ∈ (step w ev s).2 → may_issue ev s e.
Proof.
  destruct ev as [entity_id new_state| |a b|a b|ca|ca| |tid]; simpl.
  - destruct (handle_motion entity_id new_state s); by intros ?%elem_of_nil.
  - apply interval_scan_effects.
  - by intros ->%list_elem_of_singleton.
  - by intros ->%list_elem_of_singleton.
  - by intros ?%elem_of_nil.
  - by intros ?%elem_of_nil.
  - destruct (restore_tasks s); simpl; [by intros ?%elem_of_nil|].
    apply restore_lights_effects.
  - apply delay_timer_effects.
Qed.

(** The entry keeps everything but its time slots, and the area is fixed. *)
Lemma entry_frame_step (w : World) (ev : loop_event) (s : Loop) :
  with_time_slots [] (entry_data (self (step w ev s).1)) =
    with_time_slots [] (entry_data (self s)) ∧
  _area (self (step w ev s).1) = _area (self s).
Proof.
  destruct ev as [entity_id new_state| |a b|a b|ca|ca| |tid]; simpl; try done.
  - destruct (handle_motion entity_id new_state s) as [s'|e] eqn:Hm; [|done]. simpl.
    apply handle_motion_cases in Hm as [->|(active & _ & Hm)]; [done|].
    apply motion_change_cases in Hm as [-> _]. done.
  - unfold _handle_enable. by destruct (other_area ca (self s)).
  - unfold _handle_disable. by destruct (other_area ca (self s)).
  - by destruct (restore_tasks s).
  - destruct (delay_timer_cases w tid s) as [->|(t & _ & _ & [->|(_ & l & rest & ->)])]; done.
Qed.

Lemma reachable_entry_frame (d : ConfigEntryData) (s : Loop) :
  reachable d s →
  with_time_slots [] (entry_data (self s)) = with_time_slots [] d ∧
  _area (self s) = area d.
Proof.
  induction 1 as [|w ev s _ [IHd IHa]]; [done|].
  destruct (entry_frame_step w ev s) as [Hd Ha]. split; congruence.
Qed.

(** X13.  Whatever happens after setup, the manager's area is the entry's,
    the entry keeps its area, lights, sensors, threshold and delay (only the
    list of time slots can differ from the data it was set up with), and the
    occupancy map has an entry for exactly the configured motion sensors. *)
Theorem reachable_keeps_entry (d : ConfigEntryData) (s : Loop) :
  reachable d s →
  _area (self s) = area d ∧
  area (entry_data (self s)) = area d ∧
  lights (entry_data (self s)) = lights d ∧
  motion_sensors (entry_data (self s)) = motion_sensors d ∧
  illuminance_sensors (entry_data (self s)) = illuminance_sensors d ∧
  illuminance_threshold (entry_data (self s)) = illuminance_threshold d ∧
  delay (entry_data (self s)) = delay d ∧
  ∀ entity_id, is_Some (_motion_active (self s) !! entity_id) ↔ entity_id ∈ motion_sensors d.
Proof.
  intros Hr. destruct (reachable_entry_frame d s Hr) as [Hd Ha].
  destruct (reachable_tracks_sensors d s Hr) as [_ Hma].
  split_and!; [done| | | | | | |done].
  - exact (f_equal area Hd).
  - exact (f_equal lights Hd).
  - exact (f_equal motion_sensors Hd).
  - exact (f_equal illuminance_sensors Hd).
  - exact (f_equal illuminance_threshold Hd).
  - exact (f_equal delay Hd).
Qed.

Lemma timers_pending_step (w : World) (ev : loop_event) (s : Loop) :
  timers_pending s → timers_pending (step w ev s).1.
Proof.
  intros Hp. destruct ev as [entity_id new_state| |a b|a b|ca|ca| |tid]; simpl; try done.
  - destruct (handle_motion entity_id new_state s) as [s'|e] eqn:Hm; [|done]. simpl.
    apply handle_motion_cases in Hm as [->|(active & _ & Hm)]; [done|].
    apply motion_change_cases in Hm as [_ Hcases]. simpl in Hcases.
    intros sid tid Hl.
    destruct Hcases as [->|[(timer & Hrt & Hrt' & Hts' & _)|[(Hrt' & Hts' & _)|(dl & Hrt' & Hts' & _)]]].
    + by apply Hp.
    + rewrite Hrt' in Hl. apply lookup_delete_Some in Hl as [Hne Hl].
      destruct (Hp sid tid Hl) as (t & Ht & Hs & Hph & Hc).
      destruct (Hp entity_id timer Hrt) as (t0 & Ht0 & Hs0 & _).
      exists t. rewrite Hts'. split; [|done].
      unfold cancel. rewrite list_lookup_alter_ne; [done|]. intros <-. congruence.
    + rewrite Hrt' in Hl. rewrite Hts'. by apply Hp.
    + rewrite Hrt' in Hl. rewrite Hts'. apply lookup_insert_Some in Hl as [[<- <-]|[_ Hl]].
      * eexists. split; [by apply list_lookup_middle|]. done.
      * destruct (Hp sid tid Hl) as (t & Ht & ?).
        exists t. split; [|done]. by apply lookup_app_l_Some.
  - unfold _handle_enable. by destruct (other_area ca (self s)).
  - unfold _handle_disable. destruct (other_area ca (self s)); [done|].
    intros sid tid Hl. simpl in Hl. by rewrite lookup_empty in Hl.
  - by destruct (restore_tasks s).
  - destruct (delay_timer_cases w tid s) as [->|(t & Ht & Hph & [->|(_ & l & rest & ->)])];
      [done| |]; intros sid tid' Hl; simpl in *.
    + apply lookup_delete_Some in Hl as [Hne Hl].
      destruct (Hp sid tid' Hl) as (t' & Ht' & Hs' & Hrest).
      exists t'. split; [|done].
      rewrite list_lookup_insert_ne; [done|]. intros <-. congruence.
    + destruct (Hp sid tid' Hl) as (t' & Ht' & Hs' & Hph' & Hc').
      destruct (decide (tid = tid')) as [<-|Hne].
      * eexists. split; [apply list_lookup_insert_eq; by eapply lookup_lt_Some|].
        simpl. split_and!; [congruence|done|congruence].
      * exists t'. by rewrite list_lookup_insert_ne.
Qed.

Lemma reachable_pending (d : ConfigEntryData) (s : Loop) :
  reachable d s → timers_pending s.
Proof.
  induction 1 as [|w ev s _ IH]; [|by apply timers_pending_step].
  intros sid tid Hl. simpl in Hl. by rewrite lookup_empty in Hl.
Qed.

Lemma reachable_handles_tracked (d : ConfigEntryData) (s : Loop) :
  reachable d s →
  ∀ sensor_id, is_Some (_restore_timers (self s) !! sensor_id) → sensor_id ∈ motion_sensors d.
Proof.
  induction 1 as [|w ev s Hr IH].
  { intros sid [tid Hl]. simpl in Hl. by rewrite lookup_empty in Hl. }
  destruct (reachable_tracks_sensors d s Hr) as [_ Hma].
  destruct ev as [entity_id new_state| |a b|a b|ca|ca| |tid]; simpl; try done.
  - destruct (handle_motion entity_id new_state s) as [s'|e] eqn:Hm; [|done]. simpl.
    apply handle_motion_cases in Hm as [->|(active & Hk & Hm)]; [done|].
    apply motion_change_cases in Hm as [_ Hcases]. simpl in Hcases.
    intros sid [tid Hl].
    destruct Hcases as [->|[(timer & _ & Hrt' & _)|[(Hrt' & _)|(dl & Hrt' & _)]]].
    + apply IH. by exists tid.
    + rewrite Hrt' in Hl. apply lookup_delete_Some in Hl as [_ Hl]. apply IH. by exists tid.
    + rewrite Hrt' in Hl. apply IH. by exists tid.
    + rewrite Hrt' in Hl. apply lookup_insert_Some in Hl as [[<- _]|[_ Hl]].
      * by apply Hma.
      * apply IH. by exists tid.
  - unfold _handle_enable. by destruct (other_area ca (self s)).
  - unfold _handle_disable. destruct (other_area ca (self s)); [done|].
    intros sid [tid Hl]. simpl in Hl. by rewrite lookup_empty in Hl.
  - by destruct (restore_tasks s).
  - destruct (delay_timer_cases w tid s) as [->|(t & _ & _ & [->|(_ & l & rest & ->)])];
      [done| |done].
    intros sid [tid' Hl]. simpl in Hl. apply lookup_delete_Some in Hl as [_ Hl].
    apply IH. by exists tid'.
Qed.

(** X14.  In every reachable state each handle kept in [_restore_timers] is
    stored under a configured motion sensor and names a task of the loop that
    was created for that sensor and is still pending: not finished, and not
    cancelled. *)
Theorem reachable_timers_pending (d : ConfigEntryData) (s : Loop) :
  reachable d s →
  ∀ sensor_id tid, _restore_timers (self s) !! sensor_id = Some tid →
    sensor_id ∈ motion_sensors d ∧
    ∃ t, timer_tasks s !! tid = Some t ∧ t_sensor t = sensor_id ∧
         t_phase t ≠ Finished ∧ t_cancelled t = false.
Proof.
  intros Hr sid tid Hl. split.
  - apply (reachable_handles_tracked d s Hr). by exists tid.
  - by apply (reachable_pending d s Hr).
Qed.

End Sources.

Lemma step_issues_by_event_kind_witness :
  Call "light" "turn_off" (EntityId "light.hall") ∈
    (@step plain_host (hall_world "5" true) (TimerResume 0) one_pending).2 ∧
  may_issue (TimerResume 0) one_pending (Call "light" "turn_off" (EntityId "light.hall")).
Proof.
  assert (Hin : Call "light" "turn_off" (EntityId "light.hall") ∈
    (@step plain_host (hall_world "5" true) (TimerResume 0) one_pending).2).
  { vm_compute. left. }
  split; [exact Hin|].
  exact (@step_issues_by_event_kind plain_host (hall_world "5" true) (TimerResume 0)
           one_pending _ Hin).
Defined.

Lemma reachable_keeps_entry_witness :
  @reachable plain_host hall_data
    (@step plain_host (hall_world "5" true) (AddTimeSlot "06:00:00" "07:00:00") hall).1 ∧
  lights (entry_data (self
    (@step plain_host (hall_world "5" true) (AddTimeSlot "06:00:00" "07:00:00") hall).1)) =
    lights hall_data.
Proof.
  assert (Hr : @reachable plain_host hall_data
    (@step plain_host (hall_world "5" true) (AddTimeSlot "06:00:00" "07:00:00") hall).1).
  { apply reachable_step. constructor. }
  split; [exact Hr|].
  exact (proj1 (proj2 (proj2 (@reachable_keeps_entry plain_host hall_data _ Hr)))).
Defined.

Lemma reachable_timers_pending_witness :
  @reachable plain_host hall_data two_pending ∧
  _restore_timers (self two_pending) !! "binary_sensor.stairs" = Some 1 ∧
  "binary_sensor.stairs" ∈ motion_sensors hall_data.
Proof.
  assert (Hr : @reachable plain_host hall_data two_pending).
  { apply reachable_run. constructor. }
  assert (Hl : _restore_timers (self two_pending) !! "binary_sensor.stairs" = Some 1)
    by reflexivity.
  split_and!; [exact Hr|exact Hl|].
  exact (proj1 (@reachable_timers_pending plain_host hall_data two_pending Hr
                  "binary_sensor.stairs" 1 Hl)).
Defined.

(** ** Without an off-delay, and without events *)

Lemma setup_fold_value (l : list string) (ma : gmap string bool) (k : string) (v : bool) :
  foldl (λ ma sensor_id, <[sensor_id := false]> ma) ma l !! k = Some v →
  v = false ∨ ma !! k = Some v.
Proof.
  revert ma. induction l as [|x l IH]; intros ma; simpl; [by right|].
  intros [->|Hl]%IH; [by left|].
  apply lookup_insert_Some in Hl as [[_ <-]|[_ Hl]]; [by left|by right].
Qed.

Lemma setup_none_active (d : ConfigEntryData) :
  any_active (_motion_active (self (async_setup d))) = false.
Proof.
  apply not_true_iff_false. intros [k Hk]%any_active_spec. simpl in Hk.
  apply setup_fold_value in Hk as [?|Hk]; [done|]. by rewrite lookup_empty in Hk.
Qed.

Lemma cancel_all_nil (tids : list nat) : foldr cancel [] tids = [].
Proof. induction tids as [|tid tids IH]; simpl; [done|]. by rewrite IH. Qed.

Section Quiet.
Context `{Host}.

Lemma no_timer_step (w : World) (ev : loop_event) (s : Loop) :
  (default DEFAULT_DELAY (delay (entry_data (self s))) ≤ 0)%Z →
  timer_tasks s = [] →
  timer_tasks (step w ev s).1 = [].
Proof.
  intros Hd Hts. destruct ev as [entity_id new_state| |a b|a b|ca|ca| |tid]; simpl; try done.
  - destruct (handle_motion entity_id new_state s) as [s'|e] eqn:Hm; [|done]. simpl.
    apply handle_motion_cases in Hm as [->|(active & _ & Hm)]; [done|].
    unfold _handle_motion_change in Hm. simpl in Hm.
    destruct (_enabled (self s)); simpl in Hm; [|by injection Hm as <-].
    rewrite lookup_insert_eq in Hm. destruct active.
    + destruct (_restore_timers (self s) !! entity_id); injection Hm as <-; simpl;
        [|done]. by rewrite Hts.
    + apply Z.ltb_ge in Hd. rewrite Hd in Hm. by injection Hm as <-.
  - unfold _handle_disable. destruct (other_area ca (self s)); [done|]. simpl.
    rewrite Hts. apply cancel_all_nil.
  - by destruct (restore_tasks s).
  - unfold _handle_delay_timer. by rewrite Hts.
Qed.

(** X15.  With an off-delay of zero or less the manager never creates a
    timer task: in every reachable state the loop has none, so no event can
    turn a light off. *)
Theorem no_delay_never_turns_off (d : ConfigEntryData) (s : Loop) :
  reachable d s →
  (default DEFAULT_DELAY (delay d) ≤ 0)%Z →
  timer_tasks s = [] ∧
  ∀ w ev e, e ∈ (step w ev s).2 → is_turn_off e = false.
Proof.
  intros Hr Hd.
  assert (Hts : timer_tasks s = []).
  { induction Hr as [|w ev s Hr IH]; [done|].
    apply no_timer_step; [|done].
    apply reachable_entry_frame in Hr as [Hdata _].
    assert (Hdel : delay (entry_data (self s)) = delay d) by exact (f_equal delay Hdata).
    by rewrite Hdel. }
  split; [exact Hts|]. intros w ev e Hin.
  destruct ev as [entity_id new_state| |a b|a b|ca|ca| |tid]; simpl in Hin.
  - destruct (handle_motion entity_id new_state s); by apply elem_of_nil in Hin.
  - by apply interval_scan_effects in Hin as [->| ->].
  - by apply list_elem_of_singleton in Hin as ->.
  - by apply list_elem_of_singleton in Hin as ->.
  - by apply elem_of_nil in Hin.
  - by apply elem_of_nil in Hin.
  - destruct (restore_tasks s); simpl in Hin; [by apply elem_of_nil in Hin|].
    by apply restore_lights_effects in Hin as [->| ->].
  - unfold _handle_delay_timer in Hin. rewrite Hts in Hin. by apply elem_of_nil in Hin.
Qed.

Lemma quiet_step (w : World) (ev : loop_event) (s : Loop) :
  quiet s → is_state_changed ev = false →
  quiet (step w ev s).1 ∧ Forall (λ e, is_call e = false) (step w ev s).2.
Proof.
  intros (Hany & Hts & Hrs) Hev.
  destruct ev as [entity_id new_state| |a b|a b|ca|ca| |tid]; simpl; try done.
  - split; [done|]. unfold _handle_interval_scan.
    destruct (_enabled (self s)); simpl; [|done].
    destruct (_is_in_active_time_slot w (entry_data (self s))) as [[|]|]; simpl; [|done|done].
    by rewrite Hany, andb_false_r.
  - split; [done|]. by repeat constructor.
  - split; [done|]. by repeat constructor.
  - split; [|done]. unfold _handle_enable. by destruct (other_area ca (self s)).
  - split; [|done]. unfold _handle_disable. destruct (other_area ca (self s)); [done|].
    split_and!; [done| |done]. simpl. rewrite Hts. apply cancel_all_nil.
  - by rewrite Hrs.
  - unfold _handle_delay_timer. by rewrite Hts.
Qed.

(** X16.  [async_setup] marks every sensor inactive without reading its
    state, so until a state-changed event arrives the manager calls no
    service at all: on every schedule of scans, service calls and task
    resumptions that contains no state-changed event, nothing but time-slot
    events is issued, and the loop stays without tasks. *)
Theorem no_event_no_call (d : ConfigEntryData) (evs : list (World * loop_event)) :
  Forall (λ we, is_state_changed we.2 = false) evs →
  Forall (λ e, is_call e = false) (issued (run evs (async_setup d)).2) ∧
  quiet (run evs (async_setup d)).1.
Proof.
  assert (Hq : quiet (async_setup d)).
  { split_and!; [apply setup_none_active|done|done]. }
  revert Hq. generalize (async_setup d) as s.
  induction evs as [|[w ev] evs IH]; intros s Hq Hevs; simpl.
  - split; [by constructor|done].
  - apply Forall_cons in Hevs as [Hev Hevs]. simpl in Hev.
    destruct (quiet_step w ev s Hq Hev) as [Hq1 Hes].
    destruct (step w ev s) as [s1 es]. simpl in *.
    destruct (IH s1 Hq1 Hevs) as [Htr Hq2].
    destruct (run evs s1) as [s2 tr]. simpl in *.
    split; [|done]. unfold issued in *. simpl. by apply Forall_app.
Qed.

End Quiet.

Lemma no_delay_never_turns_off_witness :
  @reachable plain_host no_delay_data
    (@run plain_host rearm_events (async_setup no_delay_data)).1 ∧
  (default DEFAULT_DELAY (delay no_delay_data) ≤ 0)%Z ∧
  timer_tasks (@run plain_host rearm_events (async_setup no_delay_data)).1 = [].
Proof.
  assert (Hr : @reachable plain_host no_delay_data
    (@run plain_host rearm_events (async_setup no_delay_data)).1).
  { apply reachable_run. constructor. }
  assert (Hd : (default DEFAULT_DELAY (delay no_delay_data) ≤ 0)%Z) by done.
  split_and!; [exact Hr|exact Hd|].
  exact (proj1 (@no_delay_never_turns_off plain_host no_delay_data _ Hr Hd)).
Defined.

Lemma no_event_no_call_witness :
  Forall (λ we : World * loop_event, is_state_changed we.2 = false) eventless ∧
  Forall (λ e, is_call e = false) (issued (@run plain_host eventless (async_setup hall_data)).2).
Proof.
  assert (He : Forall (λ we : World * loop_event, is_state_changed we.2 = false) eventless).
  { by repeat constructor. }
  split; [exact He|].
  exact (proj1 (@no_event_no_call plain_host hall_data eventless He)).
Defined.

(** ** A turn-off call that fails *)

Lemma turn_off_loop_fails (w : World) (tid : nat) (bad : string) (todo : list string)
    (done_ : list string) :
  call_ok w "light" "turn_off" (EntityId bad) = false →
  (∀ l, l ∈ done_ → call_ok w "light" "turn_off" (EntityId l) = true) →
  ∀ (n : nat) (s : Loop) (t : TimerTask),
  timer_tasks s !! tid = Some t →
  t_cancelled t = false →
  length done_ < n →
  ((turn_off_loop tid t (done_ ++ bad :: todo) s).2 ++
     (resume_n w tid n (turn_off_loop tid t (done_ ++ bad :: todo) s).1).2 =
   (λ l, Call "light" "turn_off" (EntityId l)) <$> (done_ ++ [bad])) ∧
  task_finished tid (resume_n w tid n (turn_off_loop tid t (done_ ++ bad :: todo) s).1).1 ∧
  _restore_timers (self (resume_n w tid n (turn_off_loop tid t (done_ ++ bad :: todo) s).1).1) =
    delete (t_sensor t) (_restore_timers (self s)).
Proof.
  intros Hbad. induction done_ as [|l done_ IH]; intros Hok n s t Ht Hc Hn.
  - destruct n as [|n]; [simpl in Hn; lia|].
    cbn [app turn_off_loop fst snd resume_n].
    set (t1 := set_phase (TurningOff bad todo) t).
    set (s1 := set_timer_tasks (<[tid:=t1]> (timer_tasks s)) s).
    assert (Ht1 : timer_tasks s1 !! tid = Some t1).
    { simpl. apply list_lookup_insert_eq. by eapply lookup_lt_Some. }
    unfold _handle_delay_timer at 1 2 3. rewrite Ht1. cbn [t1 set_phase t_phase t_cancelled].
    rewrite Hc, Hbad.
    rewrite resume_finished by by apply timer_finish_finished.
    split_and!; [done|by apply timer_finish_finished|done].
  - destruct n as [|n]; [simpl in Hn; lia|].
    cbn [app turn_off_loop fst snd resume_n].
    set (t1 := set_phase (TurningOff l (done_ ++ bad :: todo)) t).
    set (s1 := set_timer_tasks (<[tid:=t1]> (timer_tasks s)) s).
    assert (Ht1 : timer_tasks s1 !! tid = Some t1).
    { simpl. apply list_lookup_insert_eq. by eapply lookup_lt_Some. }
    unfold _handle_delay_timer at 1 2 3. rewrite Ht1. cbn [t1 set_phase t_phase t_cancelled].
    rewrite Hc, (Hok l) by left.
    destruct (IH (λ x Hx, Hok x (list_elem_of_further _ _ _ Hx)) n s1 t1 Ht1 Hc)
      as (Hes & Hfin & Hrt); [simpl in Hn; lia|].
    destruct (turn_off_loop tid t1 (done_ ++ bad :: todo) s1) as [s2 es2].
    simpl in Hes, Hfin, Hrt.
    destruct (resume_n w tid n s2) as [s3 es3]. simpl in *.
    split_and!; [by f_equal|done|done].
Qed.

(** X17.  When the sleep of a timer task is over with no sensor active and
    the turn-off call of one light fails after the calls before it have
    returned, the task issues the calls up to and including the failing one
    and stops: the lights after it are not turned off, no cancellation event
    is fired, and the task still ends with its sensor's entry popped. *)
Theorem delay_timer_stops_at_failed_call
    (w : World) (tid : nat) (s : Loop) (t : TimerTask)
    (done_ : list string) (bad : string) (todo : list string) (n : nat) :
  timer_tasks s !! tid = Some t →
  t_phase t = Sleeping →
  t_cancelled t = false →
  any_active (_motion_active (self s)) = false →
  lights (entry_data (self s)) = done_ ++ bad :: todo →
  (∀ l, l ∈ done_ → call_ok w "light" "turn_off" (EntityId l) = true) →
  call_ok w "light" "turn_off" (EntityId bad) = false →
  length done_ + 2 ≤ n →
  (resume_n w tid n s).2 =
    ((λ l, Call "light" "turn_off" (EntityId l)) <$> (done_ ++ [bad])) ∧
  task_finished tid (resume_n w tid n s).1 ∧
  _restore_timers (self (resume_n w tid n s).1) =
    delete (t_sensor t) (_restore_timers (self s)).
Proof.
  intros Ht Hp Hc Hany Hl Hok Hbad Hn.
  destruct n as [|n]; [lia|]. cbn [resume_n].
  unfold _handle_delay_timer at 1 2 3. rewrite Ht, Hp, Hc, Hany, Hl. simpl negb. cbv iota.
  destruct (turn_off_loop_fails w tid bad todo done_ Hbad Hok n s t Ht Hc)
    as (Hes & Hfin & Hrt); [lia|].
  destruct (turn_off_loop tid t (done_ ++ bad :: todo) s) as [s1 es1].
  simpl in Hes, Hfin, Hrt.
  by destruct (resume_n w tid n s1) as [s2 es2].
Qed.

Lemma delay_timer_stops_at_failed_call_witness :
  timer_tasks one_pending !! 0 = Some (mk_task "binary_sensor.hall" 5 Sleeping false) ∧
  call_ok stairs_fail_world "light" "turn_off" (EntityId "light.stairs") = false ∧
  (resume_n stairs_fail_world 0 3 one_pending).2 =
    [Call "light" "turn_off" (EntityId "light.hall");
     Call "light" "turn_off" (EntityId "light.stairs")].
Proof.
  assert (Ht : timer_tasks one_pending !! 0 =
                 Some (mk_task "binary_sensor.hall" 5 Sleeping false)) by reflexivity.
  assert (Hbad : call_ok stairs_fail_world "light" "turn_off" (EntityId "light.stairs") = false)
    by reflexivity.
  assert (Hok : ∀ l, l ∈ ["light.hall"] →
                call_ok stairs_fail_world "light" "turn_off" (EntityId l) = true).
  { by intros l ->%list_elem_of_singleton. }
  split_and!; [exact Ht|exact Hbad|].
  exact (proj1 (delay_timer_stops_at_failed_call stairs_fail_world 0 one_pending _
                  ["light.hall"] "light.stairs" [] 3
                  Ht eq_refl eq_refl eq_refl eq_refl Hok Hbad (le_n 3))).
Defined.

(** ** Unloading *)

Section Unload.
Context `{Host}.

(** X18.  [async_unload] in a reachable state requests the cancellation of
    every task that has a handle in [_restore_timers], and those tasks issue
    nothing on any later schedule; unlike disabling it keeps the handles and
    the enabled flag, and it leaves the occupancy map as it is. *)
Theorem unload_cancels_stored_timers (d : ConfigEntryData) (s : Loop) :
  reachable d s →
  self (async_unload s).1 = self s ∧
  ∀ sensor_id tid, _restore_timers (self s) !! sensor_id = Some tid →
    (∃ t, timer_tasks (async_unload s).1 !! tid = Some t ∧ t_cancelled t = true) ∧
    ∀ evs, issued_by_timer tid (run evs (async_unload s).1).2 = [].
Proof.
  intros Hwf%reachable_timers_wf. split; [done|].
  intros sid tid Hl. destruct (Hwf sid tid Hl) as (t & Ht & _ & Hp).
  assert (Hin : tid ∈ (map_to_list (_restore_timers (self s))).*2).
  { apply list_elem_of_fmap. exists (sid, tid). split; [done|].
    by apply elem_of_map_to_list. }
  destruct (cancel_all_lookup (map_to_list (_restore_timers (self s))).*2 tid _ t Ht)
    as (t' & Ht' & _ & _ & _ & Hc).
  specialize (Hc Hin Hp). split; [by exists t'|].
  intros evs. apply silenced_run. exists t'. split; [done|by left].
Qed.

End Unload.

Lemma unload_cancels_stored_timers_witness :
  @reachable plain_host hall_data two_pending ∧
  _restore_timers (self (async_unload two_pending).1) !! "binary_sensor.stairs" = Some 1 ∧
  _enabled (self (async_unload two_pending).1) = true.
Proof.
  assert (Hr : @reachable plain_host hall_data two_pending).
  { apply reachable_run. constructor. }
  split; [exact Hr|].
  rewrite (proj1 (@unload_cancels_stored_timers plain_host hall_data two_pending Hr)).
  split; reflexivity.
Defined.

(** X19.  The registry of managers.  Unloading an entry id that has no
    manager (or before any entry was set up) raises [KeyError].  Unloading a
    registered id removes that manager only, unloads it and returns [True];
    and setting an entry up under a free id and unloading it again leaves the
    registry of the other managers exactly as it was. *)
Theorem unload_entry_spec (entry_id : string) (domain_data : option (gmap string Loop)) :
  (default ∅ domain_data !! entry_id = None →
     async_unload_entry entry_id domain_data = Raise KeyError) ∧
  (∀ manager, default ∅ domain_data !! entry_id = Some manager →
     async_unload_entry entry_id domain_data =
       Return (Some (delete entry_id (default ∅ domain_data)),
               (async_unload manager).1, (async_unload manager).2, true) ∧
     ∀ other, other ≠ entry_id →
       delete entry_id (default ∅ domain_data) !! other = default ∅ domain_data !! other) ∧
  (∀ d, default ∅ domain_data !! entry_id = None →
     ∃ unloaded asked,
       async_unload_entry entry_id (async_setup_entry entry_id d domain_data).1 =
         Return (Some (default ∅ domain_data), unloaded, asked, true)).
Proof.
  split_and!.
  - unfold async_unload_entry. destruct domain_data as [registry|]; simpl; [|done].
    by intros ->.
  - intros manager Hm. destruct domain_data as [registry|]; simpl in *;
      [|by rewrite lookup_empty in Hm].
    split; [unfold async_unload_entry; by rewrite Hm|].
    intros other Hne. by apply lookup_delete_ne.
  - intros d Hfree. unfold async_unload_entry, async_setup_entry. simpl.
    rewrite lookup_insert_eq, delete_insert_eq, delete_id by done. by eexists _, _.
Qed.

(** ** The configuration flow *)

Lemma data_update_empty (input : UserInput) : data_update input None = input.
Proof. destruct input as [a l ms [sensors|] th dl tr]; done. Qed.

Lemma submit_confirmed_slots (more : list SlotInput) (rest : list SlotInput) (f : ConfigFlow) :
  Forall (λ input, add_another input = true) more →
  submit_time_slots (more ++ rest) f =
    submit_time_slots rest
      {| _data := _data f; _time_slots := _time_slots f ++ (slot_of <$> more) |}.
Proof.
  revert f. induction more as [|input more IH]; intros f Hall; simpl.
  - rewrite app_nil_r. by destruct f.
  - apply Forall_cons in Hall as [Hadd Hall].
    unfold async_step_time_slots. rewrite Hadd. rewrite IH by done. simpl.
    by rewrite <- app_assoc.
Qed.

(** X20.  The flow stores the slots submitted with "add another" set, in the
    order of submission, and nothing else: the slot typed into the form that
    ends the flow is not stored.  Whatever the strings are, nothing is
    refused.  The entry carries the first form's input and the title names
    its area. *)
Theorem config_flow_stores_confirmed_slots
    (input : UserInput) (more : list SlotInput) (last : SlotInput) :
  Forall (λ i, add_another i = true) more →
  add_another last = false →
  ∃ f0 f1,
    async_step_user (Some input) flow_init =
      Return (f0, ShowForm "time_slots" (Some "No time slots configured")) ∧
    submit_time_slots (more ++ [last]) f0 =
      Return (f1, Some (CreateEntry ("Light Restoration - " +:+ ui_area input) input
                                    (slot_of <$> more))).
Proof.
  intros Hmore Hlast. eexists _, _. split.
  - unfold async_step_user, async_step_time_slots, flow_init. simpl. reflexivity.
  - rewrite submit_confirmed_slots by done. simpl.
    unfold async_step_time_slots. rewrite Hlast. simpl.
    by rewrite data_update_empty.
Qed.

Lemma config_flow_stores_confirmed_slots_witness :
  Forall (λ i, add_another i = true) [mk_slot_input "08:00:00" "22:00:00" true] ∧
  add_another (mk_slot_input "23:00:00" "23:30:00" false) = false ∧
  ∃ f0 f1,
    async_step_user (Some hall_input) flow_init =
      Return (f0, ShowForm "time_slots" (Some "No time slots configured")) ∧
    submit_time_slots [mk_slot_input "08:00:00" "22:00:00" true;
                       mk_slot_input "23:00:00" "23:30:00" false] f0 =
      Return (f1, Some (CreateEntry "Light Restoration - hall" hall_input
                                    [mk_slot "08:00:00" "22:00:00"])).
Proof.
  assert (Hm : Forall (λ i, add_another i = true) [mk_slot_input "08:00:00" "22:00:00" true]).
  { by repeat constructor. }
  split_and!; [exact Hm|reflexivity|].
  exact (config_flow_stores_confirmed_slots hall_input
           [mk_slot_input "08:00:00" "22:00:00" true]
           (mk_slot_input "23:00:00" "23:30:00" false) Hm eq_refl).
Defined.

(** ** An entry without time slots *)

Section NoSlot.
Context `{Host}.

Lemma no_slot_step (w : World) (ev : loop_event) (s : Loop) :
  get_time_slots (entry_data (self s)) = [] →
  is_add_time_slot ev = false →
  get_time_slots (entry_data (self (step w ev s).1)) = [] ∧
  Forall (λ e, is_restoration e = false) (step w ev s).2.
Proof.
  intros Hnone Hev.
  assert (Hclosed : ∀ w', _is_in_active_time_slot w' (entry_data (self s)) = Return false).
  { intros w'. unfold _is_in_active_time_slot. by rewrite Hnone. }
  destruct ev as [entity_id new_state| |a b|a b|ca|ca| |tid]; simpl; try done.
  - destruct (handle_motion entity_id new_state s) as [s'|e] eqn:Hm; [|done]. simpl.
    apply handle_motion_cases in Hm as [->|(active & _ & Hm)]; [done|].
    apply motion_change_cases in Hm as [-> _]. done.
  - split; [done|]. unfold _handle_interval_scan.
    destruct (_enabled (self s)); simpl; [|done]. by rewrite Hclosed.
  - split; [|by repeat constructor]. unfold get_time_slots at 1. simpl. by rewrite Hnone.
  - split; [|done]. unfold _handle_enable. by destruct (other_area ca (self s)).
  - split; [|done]. unfold _handle_disable. by destruct (other_area ca (self s)).
  - destruct (restore_tasks s); [done|]. simpl. split; [done|].
    unfold _restore_lights. destruct (_enabled (self s)); simpl; [|done]. by rewrite Hclosed.
  - split.
    + destruct (delay_timer_cases w tid s) as [->|(t & _ & _ & [->|(_ & l & rest & ->)])]; done.
    + apply Forall_forall. intros e Hin.
      by apply delay_timer_effects in Hin as [[l ->]| ->].
Qed.

(** X21.  A manager set up from an entry without time slots never restores:
    on every schedule in which the add-time-slot service is not called, the
    restore service is never called and the triggered event never fired,
    whatever the motion, the light level and the time. *)
Theorem no_slot_never_restores (d : ConfigEntryData) (evs : list (World * loop_event)) :
  get_time_slots d = [] →
  Forall (λ we, is_add_time_slot we.2 = false) evs →
  Forall (λ e, is_restoration e = false) (issued (run evs (async_setup d)).2).
Proof.
  intros Hnone.
  assert (Hs : get_time_slots (entry_data (self (async_setup d))) = []) by done.
  revert Hs. generalize (async_setup d) as s.
  induction evs as [|[w ev] evs IH]; intros s Hs Hevs; simpl; [by constructor|].
  apply Forall_cons in Hevs as [Hev Hevs]. simpl in Hev.
  destruct (no_slot_step w ev s Hs Hev) as [Hs1 Hes].
  destruct (step w ev s) as [s1 es]. simpl in *.
  specialize (IH s1 Hs1 Hevs).
  destruct (run evs s1) as [s2 tr]. simpl in *.
  unfold issued in *. simpl. by apply Forall_app.
Qed.

End NoSlot.

Lemma no_slot_never_restores_witness :
  get_time_slots (entry_data_of hall_input []) = [] ∧
  Forall (λ we : World * loop_event, is_add_time_slot we.2 = false) motion_day ∧
  Forall (λ e, is_restoration e = false)
    (issued (@run plain_host motion_day (async_setup (entry_data_of hall_input []))).2).
Proof.
  assert (Hn : get_time_slots (entry_data_of hall_input []) = []) by reflexivity.
  assert (He : Forall (λ we : World * loop_event, is_add_time_slot we.2 = false) motion_day).
  { by repeat constructor. }
  split_and!; [exact Hn|exact He|].
  exact (@no_slot_never_restores plain_host (entry_data_of hall_input []) motion_day Hn He).
Defined.

(** ** Arming again, in general *)

Lemma cancel_all_absent (tids : list nat) (tid : nat) (tasks : list TimerTask) :
  tid ∉ tids → foldr cancel tasks tids !! tid = tasks !! tid.
Proof.
  induction tids as [|x tids IH]; simpl; [done|].
  intros [Hne Hnot]%not_elem_of_cons.
  unfold cancel at 1. rewrite list_lookup_alter_ne by done. by apply IH.
Qed.

Section Rearm.
Context `{Host}.

(** X22.  In every reachable state of an enabled manager with a positive
    delay, a report other than [on] from a sensor that already has a stored
    timer stores the handle of a new task in its place and does not cancel
    the old task: it stays pending without a handle, and a later disable call
    does not cancel it either. *)
Theorem rearm_orphans_stored_timer
    (d : ConfigEntryData) (entity_id state : string) (s : Loop) (tid : nat) :
  reachable d s →
  _enabled (self s) = true →
  (0 < default DEFAULT_DELAY (delay d))%Z →
  String.eqb state STATE_ON = false →
  _restore_timers (self s) !! entity_id = Some tid →
  ∃ s', handle_motion entity_id (Some state) s = Return s' ∧
    _restore_timers (self s') =
      <[entity_id := length (timer_tasks s)]> (_restore_timers (self s)) ∧
    tid ≠ length (timer_tasks s) ∧
    (∃ t, timer_tasks s' !! tid = Some t ∧ t_phase t ≠ Finished ∧ t_cancelled t = false) ∧
    (∃ t, timer_tasks s' !! length (timer_tasks s) = Some t ∧
          t_phase t = Sleeping ∧ t_cancelled t = false) ∧
    ∀ call_area, ∃ t, timer_tasks (_handle_disable call_area s') !! tid = Some t ∧
                      t_phase t ≠ Finished ∧ t_cancelled t = false.
Proof.
  intros Hr Hen Hdelay Hoff Hl.
  pose proof (reachable_pending d s Hr) as Hp.
  destruct (reachable_tracks_sensors d s Hr) as [_ Hma].
  destruct (reachable_entry_frame d s Hr) as [Hdata _].
  assert (Hdel : delay (entry_data (self s)) = delay d) by exact (f_equal delay Hdata).
  assert (Hk : is_Some (_motion_active (self s) !! entity_id)).
  { apply Hma, (reachable_handles_tracked d s Hr). by exists tid. }
  destruct Hk as [b Hb].
  destruct (Hp entity_id tid Hl) as (t & Ht & Hsensor & Hphase & Hc).
  assert (Hlt : tid < length (timer_tasks s)) by by eapply lookup_lt_Some.
  unfold handle_motion. rewrite Hb. unfold _handle_motion_change. simpl.
  rewrite Hen, lookup_insert_eq, Hoff, Hdel. simpl.
  apply Z.ltb_lt in Hdelay. rewrite Hdelay.
  eexists. split; [done|]. simpl.
  assert (Hkeep : (timer_tasks s ++
            [mk_task entity_id (default DEFAULT_DELAY (delay d)) Sleeping false]) !! tid =
          Some t) by by apply lookup_app_l_Some.
  split_and!; [done|lia|by exists t| |].
  - eexists. split; [by apply list_lookup_middle|done].
  - intros ca. unfold _handle_disable. simpl.
    destruct (other_area ca _); simpl; [by exists t|].
    exists t. split; [|done]. rewrite cancel_all_absent; [done|].
    intros ([sid tid'] & Heq & Hin%elem_of_map_to_list)%list_elem_of_fmap.
    simpl in Heq. subst tid'.
    apply lookup_insert_Some in Hin as [[_ Heq]|[Hne Hin]]; [lia|].
    destruct (Hp sid tid Hin) as (t' & Ht' & Hsensor' & _). congruence.
Qed.

End Rearm.

Lemma rearm_orphans_stored_timer_witness :
  @reachable plain_host hall_data one_pending ∧
  _enabled (self one_pending) = true ∧
  (0 < default DEFAULT_DELAY (delay hall_data))%Z ∧
  String.eqb "unavailable" STATE_ON = false ∧
  _restore_timers (self one_pending) !! "binary_sensor.hall" = Some 0 ∧
  ∃ s', handle_motion "binary_sensor.hall" (Some "unavailable") one_pending = Return s' ∧
        _restore_timers (self s') !! "binary_sensor.hall" = Some 1.
Proof.
  assert (Hr : @reachable plain_host hall_data one_pending).
  { apply reachable_run. constructor. }
  assert (Hd : (0 < default DEFAULT_DELAY (delay hall_data))%Z) by done.
  assert (Hl : _restore_timers (self one_pending) !! "binary_sensor.hall" = Some 0)
    by reflexivity.
  split_and!; [exact Hr|reflexivity|exact Hd|reflexivity|exact Hl|].
  destruct (@rearm_orphans_stored_timer plain_host hall_data "binary_sensor.hall"
              "unavailable" one_pending 0 Hr eq_refl Hd eq_refl Hl) as (s' & Hs' & Hrt & _).
  exists s'. split; [exact Hs'|]. rewrite Hrt. apply lookup_insert_eq.
Defined.
